(** * vidsub-tools: the subtitle timing engine

    A shallow embedding of [subsync.py] (resynchronisation of the timecodes
    of a subtitle file) and of [delaycalc.py] (estimation of an initial delay
    and of a delay growth factor), with the properties of the timing engine
    stated and proved over it.

    Conventions of the embedding.
    - A Python [str] is a [list ascii]: the alphabet is the 8-bit one, in
      which the only characters matched by [\d] are ['0'] to ['9'].
    - A Python exception is a value of [exn]; a fallible computation has a
      type [result A].
    - Floats are idealised.  A float whose value is always an integer (the
      result of [calc_ms] on a parsed timecode) is a [Z]; the growth factor
      and the delays computed from it are exact rationals ([Q]) in
      [subsync.py]; the estimator of [delaycalc.py], which takes a power with
      a fractional exponent, computes over [R].  Rounding errors of the
      floating-point operations are not modelled, the conversions of
      integers to floats are exact, and there is no NaN or infinity; the
      overflow of [**] is modelled.
    - A file is the sequence of its characters, in an encoding with one
      byte for each character.  The system is a POSIX one: [read()] gives
      the line ends [\r\n] and [\r] as [\n], a write changes no character,
      and paths are those of [posixpath]. *)

From Stdlib Require Import ZArith QArith Qround Qabs Qpower Reals Lra Lia.
From Stdlib Require Import List Ascii String Bool.
From stdpp Require Import gmap strings list.

Local Open Scope Z_scope.

(** ** Exceptions and fallible computations *)

Inductive exn : Type :=
  | ValueError
  | AttributeError
  | IndexError
  | ZeroDivisionError
  | OverflowError
  | FileNotFoundError
  | EOFError
  | SystemExit.

Inductive result (A : Type) : Type :=
  | Ok (a : A)
  | Raise (e : exn).
Arguments Ok {A} a.
Arguments Raise {A} e.

#[global] Instance result_ret : MRet result := fun A a => Ok a.
#[global] Instance result_bind : MBind result := fun A B f r =>
  match r with
  | Ok a => f a
  | Raise e => Raise e
  end.
#[global] Instance result_fmap : FMap result := fun A B f r =>
  match r with
  | Ok a => Ok (f a)
  | Raise e => Raise e
  end.

Definition is_ok {A} (r : result A) : bool :=
  match r with Ok _ => true | Raise _ => false end.

(** ** Text and the timecode pattern *)

Abbreviation text := (list ascii).

Definition txt (s : string) : text := list_ascii_of_string s.

Definition ord (c : ascii) : Z := Z.of_nat (nat_of_ascii c).

(** [\d] over the 8-bit alphabet. *)
Definition is_digit (c : ascii) : bool := (48 <=? ord c) && (ord c <=? 57).

(** [int(c)] for one digit character. *)
Definition digit_value (c : ascii) : Z := ord c - 48.

Definition digit_char (d : Z) : ascii := ascii_of_nat (Z.to_nat (48 + d)).

(** The atoms of the pattern: a digit class or a literal character. *)
Inductive atom : Type :=
  | ADigit
  | AChar (c : ascii).

Definition atom_matches (a : atom) (c : ascii) : bool :=
  match a with
  | ADigit => is_digit c
  | AChar c' => Ascii.eqb c c'
  end.

(** The pattern [\d{2}:\d{2}:\d{2},\d{3}] of both modules. *)
Definition TIMECODE_RE : list atom :=
  [ADigit; ADigit; AChar ":"; ADigit; ADigit; AChar ":";
   ADigit; ADigit; AChar ","; ADigit; ADigit; ADigit].

(** Matching a sequence of atoms at the start of [s]: the matched text and
    what follows it. *)
Fixpoint match_prefix (re : list atom) (s : text) : option (text * text) :=
  match re with
  | [] => Some ([], s)
  | a :: re' =>
      match s with
      | [] => None
      | c :: s' =>
          if atom_matches a c then
            match match_prefix re' s' with
            | Some (m, rest) => Some (c :: m, rest)
            | None => None
            end
          else None
      end
  end.

(** A scanned document: the characters outside any match, and the matches,
    in document order. *)
Inductive token : Type :=
  | Other (c : ascii)
  | Timecode (m : text).

(** The scan of the regex engine: leftmost match first, then on from the end
    of the match; [skip] counts the characters of the current match that are
    still to be passed over. *)
Fixpoint scan (skip : nat) (s : text) : list token :=
  match s with
  | [] => []
  | c :: s' =>
      match skip with
      | S k => scan k s'
      | O =>
          match match_prefix TIMECODE_RE s with
          | Some (m, _) => Timecode m :: scan (length m - 1) s'
          | None => Other c :: scan 0 s'
          end
      end
  end.

Definition tokens (s : text) : list token := scan 0 s.

Definition token_match (t : token) : option text :=
  match t with
  | Timecode m => Some m
  | Other _ => None
  end.

Definition token_other (t : token) : option ascii :=
  match t with
  | Other c => Some c
  | Timecode _ => None
  end.

(** [re.findall(TIMECODE_RE, data)] *)
Definition re_findall (data : text) : list text := omap token_match (tokens data).

(** [re.search(TIMECODE_RE, data)]: the first match, or [None]. *)
Definition re_search (data : text) : option text := head (re_findall data).

(** [re.sub(TIMECODE_RE, repl, data)] with a function [repl] that may raise. *)
Fixpoint sub_tokens (repl : text -> result text) (ts : list token) : result text :=
  match ts with
  | [] => Ok []
  | Other c :: ts' => out ← sub_tokens repl ts'; Ok (c :: out)
  | Timecode m :: ts' => r ← repl m; out ← sub_tokens repl ts'; Ok (r ++ out)
  end.

Definition re_sub (repl : text -> result text) (data : text) : result text :=
  sub_tokens repl (tokens data).

(** What is left of a document once its timecodes are taken out. *)
Definition strip_timecodes (data : text) : text := omap token_other (tokens data).

(** ** Dates and times of the [datetime] module *)

(** A [datetime.datetime]: the date as its proleptic Gregorian ordinal
    ([toordinal()]), and the time of day. *)
Record datetime : Type := mk_datetime {
  ordinal : Z;
  hour : Z;
  minute : Z;
  second : Z;
  microsecond : Z
}.

(** [date(1900, 1, 1).toordinal()], the date [strptime] gives when the format
    has none; [date.min.toordinal()] and [date.max.toordinal()]. *)
Definition ORD_1900 : Z := 693596.
Definition MINORD : Z := 1.
Definition MAXORD : Z := 3652059.

Definition US_PER_DAY : Z := 86400000000.

(** [int(s)] on a string of digits. *)
Definition int_of_digits (ds : text) : Z :=
  fold_left (fun acc c => 10 * acc + digit_value c) ds 0.

(** [datetime.datetime.strptime(s, "%H:%M:%S,%f")] on the strings the two
    modules give it, the matches of [TIMECODE_RE]: a [ValueError] unless the
    fields are a time of day.  The three digits of [%f] are padded to six on
    the right.  (CPython also accepts one-digit fields; no match of the
    pattern has one.) *)
Definition strptime (s : text) : result datetime :=
  match match_prefix TIMECODE_RE s with
  | Some ([h1; h2; _; m1; m2; _; s1; s2; _; f1; f2; f3], []) =>
      let h := int_of_digits [h1; h2] in
      let m := int_of_digits [m1; m2] in
      let sec := int_of_digits [s1; s2] in
      let us := int_of_digits ([f1; f2; f3] ++ txt "000") in
      if (h <? 24) && (m <? 60) && (sec <? 60) then
        Ok {| ordinal := ORD_1900; hour := h; minute := m; second := sec;
              microsecond := us |}
      else Raise ValueError
  | _ => Raise ValueError
  end.

(** [str(n).zfill(width)] for [0 <= n < 10 ^ width]. *)
Fixpoint zfill (width : nat) (n : Z) : text :=
  match width with
  | O => []
  | S w => zfill w (n / 10) ++ [digit_char (n mod 10)]
  end.

(** [t.strftime("%H:%M:%S,%f")] *)
Definition strftime (t : datetime) : text :=
  zfill 2 (hour t) ++ txt ":" ++ zfill 2 (minute t) ++ txt ":" ++
  zfill 2 (second t) ++ txt "," ++ zfill 6 (microsecond t).

(** [s[:-k]] for [k > 0] *)
Definition drop_end (k : nat) (s : text) : text := take (length s - k) s.

(** Rounding to the nearest integer, ties to even. *)
Definition round_half_even (x : Q) : Z :=
  let f := Qfloor x in
  match (x - inject_Z f ?= 1 # 2)%Q with
  | Lt => f
  | Gt => f + 1
  | Eq => if Z.even f then f else f + 1
  end.

(** [datetime.timedelta(milliseconds=x)] as a number of microseconds: the
    argument is rounded to the nearest microsecond, and the normalised number
    of days must have a magnitude of at most 999999999. *)
Definition timedelta (milliseconds : Q) : result Z :=
  let us := round_half_even (milliseconds * 1000) in
  if Z.abs (us / US_PER_DAY) <=? 999999999 then Ok us else Raise OverflowError.

Definition time_us (t : datetime) : Z :=
  ((hour t * 60 + minute t) * 60 + second t) * 1000000 + microsecond t.

(** [t + delta]: the carry goes into the date, which must stay between
    [date.min] and [date.max]. *)
Definition datetime_add (t : datetime) (delta : Z) : result datetime :=
  let total := time_us t + delta in
  let ord' := ordinal t + total / US_PER_DAY in
  let r := total mod US_PER_DAY in
  if (MINORD <=? ord') && (ord' <=? MAXORD) then
    Ok {| ordinal := ord';
          hour := r / 3600000000;
          minute := r / 60000000 mod 60;
          second := r / 1000000 mod 60;
          microsecond := r mod 1000000 |}
  else Raise OverflowError.

(** [x ** n] on floats, for an exponent with an integer value: a
    [ZeroDivisionError] for a negative power of zero, an [OverflowError]
    when the magnitude of the result reaches [2 ^ 1024]. *)
Definition float_pow (x : Q) (n : Z) : result Q :=
  if Qeq_bool x 0 && (n <? 0) then Raise ZeroDivisionError
  else
    let r := (x ^ n)%Q in
    if Qle_bool (inject_Z (2 ^ 1024)) (Qabs r) then Raise OverflowError
    else Ok r.

(** ** The process and its environment *)

(** How a file is opened. *)
Inductive mode : Type :=
  | ModeR
  | ModeRPlus.

(** What a run does that can be observed, in order: the lines it prints, the
    prompt, the files it opens and what it writes. *)
Inductive event : Type :=
  | PrintSyncing (file : string)
  | PrintUnderflow
  | PrintNoSubs
  | PrintPreview (delay : Z) (growth : Q)
  | PrintFile (file : string)
  | Prompt
  | Open (file : string) (m : mode)
  | Write (file : string) (data : text).

(** The environment of a run.  [realpath] is how the operating system
    resolves a path given to a system call, a relative one from the current
    working directory; regular files and directories are kept by their
    resolved path, a file with its text and a directory with the names of its
    entries.  [stdin] holds the lines still to be read, [trace] the events so
    far. *)
Record world : Type := mk_world {
  realpath : string -> string;
  files : gmap string text;
  dirs : gmap string (list string);
  stdin : list text;
  trace : list event
}.

(** A program: it runs in a world, changes it, and returns or raises. *)
Definition prog (A : Type) : Type := world -> result A * world.

#[global] Instance prog_ret : MRet prog := fun A a w => (Ok a, w).
#[global] Instance prog_bind : MBind prog := fun A B f p w =>
  match p w with
  | (Ok a, w') => f a w'
  | (Raise e, w') => (Raise e, w')
  end.

Definition lift {A} (r : result A) : prog A := fun w => (r, w).

Definition reads {A} (f : world -> A) : prog A := fun w => (Ok (f w), w).

Definition emit (e : event) : prog unit := fun w =>
  (Ok tt, mk_world (realpath w) (files w) (dirs w) (stdin w) (trace w ++ [e])).

Fixpoint for_each {A} (l : list A) (body : A -> prog unit) : prog unit :=
  match l with
  | [] => mret tt
  | x :: l' => body x;; for_each l' body
  end.

(** [os.path.isfile], [os.path.isdir], [os.listdir] *)
Definition isfile (p : string) (w : world) : bool :=
  bool_decide (is_Some (files w !! realpath w p)).

Definition isdir (p : string) (w : world) : bool :=
  bool_decide (is_Some (dirs w !! realpath w p)).

Definition listdir (p : string) : prog (list string) := fun w =>
  match dirs w !! realpath w p with
  | Some names => (Ok names, w)
  | None => (Raise FileNotFoundError, w)
  end.

(** [open(file, "r")] followed by [read()]. *)
(** The carriage return and the line feed. *)
Definition CR : ascii := "013"%char.
Definition LF : ascii := "010"%char.

(** The translation of line ends on reading, with the default
    [newline=None] of [open]: [\r\n] and [\r] are read as [\n]. *)
Fixpoint universal_newlines (s : text) : text :=
  match s with
  | [] => []
  | c :: s' =>
      if Ascii.eqb c CR then
        LF :: match s' with
              | c' :: s'' =>
                  if Ascii.eqb c' LF then universal_newlines s''
                  else universal_newlines s'
              | [] => []
              end
      else c :: universal_newlines s'
  end.

(** [read()] on a file opened as a text. *)
Definition content (file : string) : prog text := fun w =>
  match files w !! realpath w file with
  | Some data => (Ok (universal_newlines data), w)
  | None => (Raise FileNotFoundError, w)
  end.

Definition open_read (file : string) : prog text :=
  emit (Open file ModeR);; content file.

(** [open(file, "r+")]: the file must exist, and keeps its content. *)
Definition open_rplus (file : string) : prog unit :=
  emit (Open file ModeRPlus);; content file;; mret tt.

(** What a file opened with ["r+"] holds after one [write(new)] and the
    closing of the file, from what it held: the write starts at offset 0
    and does not truncate the file. *)
Definition overwrite (new old : text) : text := new ++ drop (length new) old.

Definition store (file : string) (new : text) : prog unit := fun w =>
  (Ok tt,
   mk_world (realpath w) (alter (overwrite new) (realpath w file) (files w))
            (dirs w) (stdin w) (trace w)).

Definition write (file : string) (new : text) : prog unit :=
  emit (Write file new);; store file new.

(** [input(prompt)]: the next line of the standard input. *)
Definition readline : prog text := fun w =>
  match stdin w with
  | line :: rest =>
      (Ok line, mk_world (realpath w) (files w) (dirs w) rest (trace w))
  | [] => (Raise EOFError, w)
  end.

Definition input : prog text := emit Prompt;; readline.

(** [str.lower] over the 8-bit alphabet: the letters A to Z, and the
    capital letters of Latin-1. *)
Definition lower_char (c : ascii) : ascii :=
  let n := ord c in
  if ((65 <=? n) && (n <=? 90)) ||
     ((192 <=? n) && (n <=? 222) && negb (n =? 215))
  then ascii_of_nat (Z.to_nat (n + 32)) else c.

Definition lower (s : text) : text := map lower_char s.

(** [p.rfind(c)]: the index of the last [c] in [p], or -1. *)
Fixpoint rfind_from (c : ascii) (p : text) (i : Z) : Z :=
  match p with
  | [] => -1
  | x :: p' =>
      let r := rfind_from c p' (i + 1) in
      if 0 <=? r then r else if Ascii.eqb x c then i else -1
  end.

Definition rfind (c : ascii) (p : text) : Z := rfind_from c p 0.

(** [os.path.splitext] of [posixpath]: the extension starts at the last dot
    of the last component, unless only dots come before it there. *)
Definition splitext (p : string) : string * string :=
  let cs := list_ascii_of_string p in
  let sepIndex := rfind "/" cs in
  let dotIndex := rfind "." cs in
  if sepIndex <? dotIndex then
    let before := drop (Z.to_nat (sepIndex + 1)) (take (Z.to_nat dotIndex) cs) in
    if forallb (fun c => Ascii.eqb c ".") before then (p, ""%string)
    else (string_of_list_ascii (take (Z.to_nat dotIndex) cs),
          string_of_list_ascii (drop (Z.to_nat dotIndex) cs))
  else (p, ""%string).

(** [l[i]] on a Python list, with the negative indices counted from the
    end. *)
Definition py_index {A} (l : list A) (i : Z) : result A :=
  let n := Z.of_nat (length l) in
  let j := if i <? 0 then i + n else i in
  if (0 <=? j) && (j <? n) then
    match l !! Z.to_nat j with
    | Some x => Ok x
    | None => Raise IndexError
    end
  else Raise IndexError.

(** ** subsync.py *)

Module subsync.

Definition SUPP_SUB_EXTS : list string := [".srt"%string].

(** [calc_ms]: the milliseconds since midnight.  [t.microsecond / 1000] is a
    true division; every [datetime] the module builds with [strptime] has a
    multiple of 1000 microseconds, so that the quotient is exact. *)
Definition calc_ms (t : datetime) : Z :=
  ((hour t * 60 + minute t) * 60 + second t) * 1000 + microsecond t / 1000.

(** [re.search(...).group()]: an [AttributeError] on [None]. *)
Definition search_group (data : text) : result text :=
  match re_search data with
  | Some m => Ok m
  | None => Raise AttributeError
  end.

Definition is_delay_valid (delay : Z) (data : text) : result bool :=
  time_str ← search_group data;
  first_sub ← strptime time_str;
  Ok (0 <=? calc_ms first_sub + delay).

Definition get_delayed_time (time_str : text) (delay : Z) (growth : Q)
  : result text :=
  time ← strptime time_str;
  p ← float_pow growth (calc_ms time);
  let delay := (inject_Z delay * p)%Q in
  delta ← timedelta delay;
  shifted ← datetime_add time delta;
  Ok (drop_end 3 (strftime shifted)).

Definition sync_sub (file : string) (delay : Z) (growth : Q) : prog unit :=
  emit (PrintSyncing file);;
  data ← open_read file;
  valid ← lift (is_delay_valid delay data);
  if negb valid then emit PrintUnderflow
  else
    let repl_fun := fun m => get_delayed_time m delay growth in
    open_rplus file;;
    new ← lift (re_sub repl_fun data);
    write file new.

Definition supported (fn : string) : bool :=
  bool_decide ((splitext fn).2 ∈ SUPP_SUB_EXTS).

Definition get_sub_files (tgt : string) : prog (option (list string)) :=
  f ← reads (isfile tgt);
  if f : bool then mret (Some [tgt])
  else
    d ← reads (isdir tgt);
    if d : bool then names ← listdir tgt; mret (Some (filter supported names))
    else mret None.

Definition confirm_sync (subs : list string) (delay : Z) (growth : Q)
  : prog bool :=
  emit (PrintPreview delay growth);;
  for_each subs (fun file => emit (PrintFile file));;
  line ← input;
  mret (bool_decide (lower line = txt "y")).

(** [growth_type] on the value of [float(x)], a finite number.  Its
    exception is an [argparse.ArgumentTypeError], which the parser turns into
    an exit of the process. *)
Definition growth_type (x : Q) : result Q :=
  if negb (Qle_bool 1 x) then Raise SystemExit else Ok x.

(** The command line once split: the delay, and the options [--target] and
    [--growth] when given. *)
Record argv : Type := mk_argv {
  arg_delay : Z;
  arg_target : option string;
  arg_growth : option Q
}.

Definition get_args (a : argv) : prog (Z * string * Q) :=
  growth ← lift (match arg_growth a with
                 | Some x => growth_type x
                 | None => Ok 1%Q
                 end);
  let delay := arg_delay a in
  let tgt := default "."%string (arg_target a) in
  f ← reads (isfile tgt);
  if (f : bool) && negb (supported tgt) then lift (Raise SystemExit)
  else mret (delay, tgt, growth).

Definition main (a : argv) : prog unit :=
  '(delay, tgt, growth) ← get_args a;
  subs ← get_sub_files tgt;
  match subs with
  | None | Some [] => emit PrintNoSubs
  | Some subs =>
      ok ← confirm_sync subs delay growth;
      if negb ok then mret tt
      else for_each subs (fun file => sync_sub file delay growth)
  end.

End subsync.

(** ** delaycalc.py *)

Module delaycalc.

Definition SUPP_SUB_EXTS : list string := [".srt"%string].

(** The module has its own copy of [calc_ms]. *)
Definition calc_ms (t : datetime) : Z :=
  ((hour t * 60 + minute t) * 60 + second t) * 1000 + microsecond t / 1000.

(** [a / b], the true division, on two numbers with an integer value. *)
Definition truediv (a b : Z) : result R :=
  if b =? 0 then Raise ZeroDivisionError else Ok (IZR a / IZR b)%R.

(** [math.pow(x, y)]: a [ValueError] for a negative power of zero and for a
    fractional power of a negative number. *)
Definition math_pow (x y : R) : result R :=
  if Rlt_dec 0 x then Ok (Rpower x y)
  else if Rlt_dec x 0 then
    if Req_dec_T y (IZR (Int_part y)) then Ok (powerRZ x (Int_part y))
    else Raise ValueError
  else if Rlt_dec y 0 then Raise ValueError
  else if Rlt_dec 0 y then Ok 0%R
  else Ok 1%R.

Definition calc_delay (data : text) (time1 time2 : Z) : result (R * R) :=
  let subs := re_findall data in
  first ← py_index subs 0;
  t1 ← strptime first;
  let sub1 := calc_ms t1 in
  penultimate ← py_index subs (-2);
  t2 ← strptime penultimate;
  let sub2 := calc_ms t2 in
  let delay1 := time1 - sub1 in
  let delay2 := time2 - sub2 in
  base ← truediv delay1 delay2;
  exponent ← truediv 1 (time1 - time2);
  growth ← math_pow base exponent;
  Ok (IZR delay1, growth).

(** The checks of [get_args] on the two times, once the file is known to be
    a supported one. *)
Definition check_times (time1 time2 : Z) : result (Z * Z) :=
  if (time1 <? 0) || (time2 <? 0) then Raise SystemExit
  else if negb (time1 <? time2) then Raise SystemExit
  else Ok (time1, time2).

End delaycalc.

(** * The vocabulary of the properties *)

(** A text that the pattern matches as a whole. *)
Definition is_timecode (m : text) : Prop :=
  match_prefix TIMECODE_RE m = Some (m, []).

(** What the pattern can tell of a character. *)
Definition kind (c : ascii) : bool * bool * bool :=
  (is_digit c, Ascii.eqb c ":", Ascii.eqb c ",").

(** The atoms the pattern is made of. *)
Definition pattern_atom (a : atom) : Prop :=
  a = ADigit \/ a = AChar ":" \/ a = AChar ",".

(** A scanned document against its rewriting: the same characters outside
    the timecodes, and each timecode against its replacement. *)
Inductive token_rewritten (repl : text -> result text) : token -> token -> Prop :=
  | rewritten_other c : token_rewritten repl (Other c) (Other c)
  | rewritten_timecode m r :
      repl m = Ok r -> token_rewritten repl (Timecode m) (Timecode r).

(** The shape of a timecode: nine digits and three separators. *)
Definition timecode_text (d1 d2 d3 d4 d5 d6 d7 d8 d9 : ascii) : text :=
  [d1; d2; ":"%char; d3; d4; ":"%char; d5; d6; ","%char; d7; d8; d9].

(** The fields of a timecode and its milliseconds, whatever their range. *)
Definition field2 (a b : ascii) : Z := 10 * digit_value a + digit_value b.
Definition field3 (a b c : ascii) : Z :=
  100 * digit_value a + 10 * digit_value b + digit_value c.


Definition is_time_of_day (m : text) : bool :=
  match m with
  | [h1; h2; _; m1; m2; _; s1; s2; _; _; _; _] =>
      (field2 h1 h2 <? 24) && (field2 m1 m2 <? 60) && (field2 s1 s2 <? 60)
  | _ => false
  end.

(** What [strptime] returns: a time of day on the first of January 1900,
    with a whole number of milliseconds. *)
Record clock_time (t : datetime) : Prop := mk_clock_time {
  clock_ordinal : ordinal t = ORD_1900;
  clock_hour : 0 <= hour t < 24;
  clock_minute : 0 <= minute t < 60;
  clock_second : 0 <= second t < 60;
  clock_millis : exists k, 0 <= k < 1000 /\ microsecond t = 1000 * k
}.

(** The codec of the engine, as the code has it: a timecode is parsed by
    [strptime] followed by [calc_ms]; the timecode of a number of
    milliseconds is what [get_delayed_time] writes for the time that is so
    many milliseconds after midnight. *)
Definition parse_ms (s : text) : result Z := t ← strptime s; Ok (subsync.calc_ms t).

(** See [parse_ms]. *)
Definition format_ms (ms : Z) : result text :=
  subsync.get_delayed_time (txt "00:00:00,000") ms 1.

(** The milliseconds of a day. *)
Definition MS_PER_DAY : Z := 24 * 3600 * 1000.

(** The world after more events, and after one write to a file. *)
Definition report (w : world) (es : list event) : world :=
  mk_world (realpath w) (files w) (dirs w) (stdin w) (trace w ++ es).

(** See [report]. *)
Definition written (file : string) (new : text) (w : world) : world :=
  mk_world (realpath w) (alter (overwrite new) (realpath w file) (files w))
           (dirs w) (stdin w) (trace w).

(** The paths given to [open] in a list of events. *)
Definition opened (es : list event) : list string :=
  omap (fun e => match e with Open p _ => Some p | _ => None end) es.

(** A document with one cue, that is with two timecodes. *)
Definition sample_document : text := txt "1
00:00:10,000 --> 00:05:00,000
Hello".

(** A world in which paths resolve to themselves, with the given files and
    directories, and the given lines on the standard input. *)
Definition world_of (fs : list (string * text)) (ds : list (string * list string))
    (lines : list text) : world :=
  mk_world (fun p => p) (list_to_map fs) (list_to_map ds) lines [].

(** A document that starts three seconds in. *)
Definition early_document : text := txt "1
00:00:03,000 --> 00:00:04,000
Hi".

(** The loop of [main] over the working set. *)
Definition apply_all (subs : list string) (delay : Z) (growth : Q) : prog unit :=
  for_each subs (fun file => subsync.sync_sub file delay growth).

(** A document that starts one minute in. *)
Definition late_document : text := txt "1
00:01:00,000 --> 00:01:02,000
Bye".

(** A directory with a document that holds no timecode, followed by one that
    can be delayed. *)
Definition batch_world : world :=
  world_of [("a.srt"%string, txt "no timecode here");
            ("b.srt"%string, late_document)]
           [("."%string, ["a.srt"; "b.srt"]%string)]
           [txt "y"].

(** A directory [subs] with one document, and a document of the same name
    in the current working directory. *)
Definition directory_world : world :=
  mk_world (fun p => String.append "/home/" p)
    (list_to_map [("/home/subs/a.srt"%string, late_document);
                  ("/home/a.srt"%string, early_document)])
    (list_to_map [("/home/subs"%string, ["a.srt"; "notes.txt"]%string)])
    [txt "y"] [].

(** The estimation once the two timecodes it reads are known. *)
Definition growth_model (delay1 delay2 interval : Z) : result (R * R) :=
  base ← delaycalc.truediv delay1 delay2;
  exponent ← delaycalc.truediv 1 interval;
  growth ← delaycalc.math_pow base exponent;
  Ok (IZR delay1, growth).

(** A document with the line ends [\r\n]. *)
Definition crlf_document : text :=
  [ "1"; CR; LF; "0"; "0"; ":"; "0"; "0"; ":"; "0"; "1"; ","; "0"; "0"; "0";
    CR; LF; "H"; "i"; CR; LF ]%char.

(** A document with two cues, nine seconds apart. *)
Definition two_cues : text := txt "1
00:00:01,000 --> 00:00:02,000
A

2
00:00:10,000 --> 00:00:11,000
B".

(** A bound on the delays under which no date leaves the calendar: the
    days from [date.min] to the first of January 1900, in milliseconds. *)
Definition MAX_DELAY : Z := (ORD_1900 - MINORD) * MS_PER_DAY.

(** The runs of [main], case by case. *)
Inductive main_outcome (a : subsync.argv) (w : world) : result unit * world -> Prop :=
  | outcome_exit : main_outcome a w (Raise SystemExit, w)
  | outcome_no_subs : main_outcome a w (Ok tt, report w [PrintNoSubs])
  | outcome_eof delay growth subs :
      stdin w = [] ->
      main_outcome a w
        (Raise EOFError,
         report w (PrintPreview delay growth :: map PrintFile subs ++ [Prompt]))
  | outcome_declined delay growth subs line rest :
      stdin w = line :: rest -> lower line <> txt "y" ->
      main_outcome a w
        (Ok tt,
         mk_world (realpath w) (files w) (dirs w) rest
           (trace w ++ PrintPreview delay growth :: map PrintFile subs ++ [Prompt]))
  | outcome_accepted delay growth subs line rest :
      stdin w = line :: rest -> lower line = txt "y" ->
      main_outcome a w
        (apply_all subs delay growth
           (mk_world (realpath w) (files w) (dirs w) rest
              (trace w ++ PrintPreview delay growth ::
                          map PrintFile subs ++ [Prompt]))).




(** * Properties *)

(** ** The scan of the pattern *)

Lemma match_prefix_split re s m rest :
  match_prefix re s = Some (m, rest) ->
  s = m ++ rest /\ length m = length re /\ match_prefix re m = Some (m, []).
Proof.
  revert s m rest. induction re as [|a re IH]; intros s m rest H; simpl in H.
  - inversion H; subst. auto.
  - destruct s as [|c s]; [discriminate|].
    destruct (atom_matches a c) eqn:Ha; [|discriminate].
    destruct (match_prefix re s) as [[m' rest']|] eqn:Hm; [|discriminate].
    inversion H; subst. destruct (IH _ _ _ Hm) as (-> & Hl & Hm').
    simpl. rewrite Ha, Hm', Hl. auto.
Qed.

Lemma match_prefix_app re m rest :
  match_prefix re m = Some (m, []) ->
  match_prefix re (m ++ rest) = Some (m, rest).
Proof.
  revert m. induction re as [|a re IH]; intros m H; simpl in *.
  - inversion H. reflexivity.
  - destruct m as [|c m]; [discriminate|]. simpl.
    destruct (atom_matches a c); [|discriminate].
    destruct (match_prefix re m) as [[m' rest']|] eqn:Hm; [|discriminate].
    injection H as Hm' Hr. subst m' rest'.
    rewrite (IH _ Hm). reflexivity.
Qed.

Lemma is_timecode_length m : is_timecode m -> length m = 12%nat.
Proof. intros H. apply match_prefix_split in H. tauto. Qed.

Lemma scan_skip k s : scan k s = scan 0 (drop k s).
Proof.
  revert k. induction s as [|c s IH]; intros [|k]; try reflexivity.
  simpl scan at 1. rewrite IH. reflexivity.
Qed.

Lemma tokens_nil : tokens [] = [].
Proof. reflexivity. Qed.

Lemma tokens_other c s :
  match_prefix TIMECODE_RE (c :: s) = None ->
  tokens (c :: s) = Other c :: tokens s.
Proof. intros H. unfold tokens. simpl scan. simpl in H. rewrite H. reflexivity. Qed.

Lemma tokens_timecode m rest :
  is_timecode m -> tokens (m ++ rest) = Timecode m :: tokens rest.
Proof.
  intros H. pose proof (is_timecode_length _ H) as Hl.
  pose proof (match_prefix_app _ _ rest H) as Hm.
  destruct m as [|c m]; [discriminate|].
  unfold tokens. change ((c :: m) ++ rest) with (c :: (m ++ rest)) in *.
  cbv beta iota delta [scan]. fold scan. rewrite Hm.
  rewrite scan_skip. simpl in Hl. simpl length.
  replace (S (length m) - 1)%nat with (length m) by lia.
  rewrite drop_app_length. reflexivity.
Qed.

(** The induction that follows the scan. *)
Lemma tokens_ind (P : text -> Prop) :
  P [] ->
  (forall c s, match_prefix TIMECODE_RE (c :: s) = None -> P s -> P (c :: s)) ->
  (forall m rest, is_timecode m -> P rest -> P (m ++ rest)) ->
  forall s, P s.
Proof.
  intros Hnil Hother Htc s.
  remember (length s) as n eqn:Hn. revert s Hn.
  induction n as [n IH] using lt_wf_ind. intros s Hn.
  destruct s as [|c s]; [exact Hnil|].
  destruct (match_prefix TIMECODE_RE (c :: s)) as [[m rest]|] eqn:Hm.
  - destruct (match_prefix_split _ _ _ _ Hm) as (Hs & Hl & Htcm).
    rewrite Hs. apply Htc; [exact Htcm|].
    apply (IH (length rest)); [|reflexivity].
    rewrite Hn, Hs, length_app, Hl. simpl. lia.
  - apply Hother; [exact Hm|].
    apply (IH (length s)); [|reflexivity]. rewrite Hn. simpl. lia.
Qed.

Lemma TIMECODE_RE_atoms : Forall pattern_atom TIMECODE_RE.
Proof.
  unfold TIMECODE_RE, pattern_atom.
  repeat (apply List.Forall_cons; [tauto|]). apply List.Forall_nil.
Qed.

Lemma atom_matches_kind a c c' :
  pattern_atom a -> kind c = kind c' -> atom_matches a c = atom_matches a c'.
Proof.
  unfold kind. intros [->|[->| ->]] H; injection H as H1 H2 H3; simpl; assumption.
Qed.

Lemma digit_not_separator c :
  is_digit c = true -> Ascii.eqb c ":" = false /\ Ascii.eqb c "," = false.
Proof.
  intros H. split; apply Ascii.eqb_neq; intros ->; discriminate H.
Qed.

Lemma atom_matches_same_kind a c c' :
  pattern_atom a -> atom_matches a c = true -> atom_matches a c' = true ->
  kind c = kind c'.
Proof.
  unfold kind. intros [->|[->| ->]]; simpl; intros H H'.
  - destruct (digit_not_separator _ H) as [-> ->].
    destruct (digit_not_separator _ H') as [-> ->]. rewrite H, H'. reflexivity.
  - apply Ascii.eqb_eq in H, H'. subst. reflexivity.
  - apply Ascii.eqb_eq in H, H'. subst. reflexivity.
Qed.

Lemma match_prefix_none_kind re s t :
  Forall pattern_atom re -> map kind s = map kind t ->
  match_prefix re s = None -> match_prefix re t = None.
Proof.
  intros Hre. revert s t. induction Hre as [|a re Ha Hre IH]; intros s t Hk H.
  - discriminate H.
  - destruct s as [|c s], t as [|c' t]; try discriminate Hk; [reflexivity|].
    rewrite !map_cons in Hk.
    assert (Hc : kind c = kind c') by exact (f_equal (hd (kind c)) Hk).
    apply (f_equal (@tl _)) in Hk. simpl in Hk, H |- *.
    rewrite <- (atom_matches_kind a c c' Ha Hc).
    destruct (atom_matches a c); [|reflexivity].
    destruct (match_prefix re s) as [[m rest]|] eqn:Hm; [discriminate|].
    rewrite (IH _ _ Hk Hm). reflexivity.
Qed.

Lemma matched_kind re m r :
  Forall pattern_atom re ->
  match_prefix re m = Some (m, []) -> match_prefix re r = Some (r, []) ->
  map kind m = map kind r.
Proof.
  intros Hre. revert m r. induction Hre as [|a re Ha Hre IH]; intros m r Hm Hr.
  - simpl in *. injection Hm as <-. injection Hr as <-. reflexivity.
  - destruct m as [|c m], r as [|c' r]; try discriminate.
    simpl in Hm, Hr.
    destruct (atom_matches a c) eqn:Hc; [|discriminate].
    destruct (atom_matches a c') eqn:Hc'; [|discriminate].
    destruct (match_prefix re m) as [[m1 rest1]|] eqn:Hm1; [|discriminate].
    destruct (match_prefix re r) as [[r1 rest2]|] eqn:Hr1; [|discriminate].
    injection Hm as -> ->. injection Hr as -> ->.
    simpl. rewrite (atom_matches_same_kind a c c' Ha Hc Hc').
    rewrite (IH _ _ Hm1 Hr1). reflexivity.
Qed.

Lemma is_timecode_kind m r :
  is_timecode m -> is_timecode r -> map kind m = map kind r.
Proof. apply matched_kind, TIMECODE_RE_atoms. Qed.

Section Rewriting.

Variable repl : text -> result text.
Hypothesis repl_timecode : forall m r, is_timecode m -> repl m = Ok r -> is_timecode r.

Lemma re_sub_nil : re_sub repl [] = Ok [].
Proof. reflexivity. Qed.

Lemma re_sub_other c s :
  match_prefix TIMECODE_RE (c :: s) = None ->
  re_sub repl (c :: s) = (out ← re_sub repl s; Ok (c :: out)).
Proof. intros H. unfold re_sub. rewrite (tokens_other _ _ H). reflexivity. Qed.

Lemma re_sub_timecode m rest :
  is_timecode m ->
  re_sub repl (m ++ rest) = (r ← repl m; out ← re_sub repl rest; Ok (r ++ out)).
Proof. intros H. unfold re_sub. rewrite (tokens_timecode _ _ H). reflexivity. Qed.

Lemma re_sub_kind data out :
  re_sub repl data = Ok out -> map kind out = map kind data.
Proof.
  revert out. induction data as [|c s Hc IH|m rest Hm IH] using tokens_ind;
    intros out H.
  - rewrite re_sub_nil in H. injection H as <-. reflexivity.
  - rewrite (re_sub_other _ _ Hc) in H.
    destruct (re_sub repl s) as [out'|e]; [|discriminate].
    injection H as <-. simpl. rewrite (IH out' eq_refl). reflexivity.
  - rewrite (re_sub_timecode _ _ Hm) in H.
    destruct (repl m) as [r|e] eqn:Hr; [|discriminate]. simpl in H.
    destruct (re_sub repl rest) as [out'|e]; [|discriminate].
    injection H as <-. rewrite !map_app, (IH out' eq_refl).
    rewrite (is_timecode_kind r m); [reflexivity| |assumption].
    eapply repl_timecode; eassumption.
Qed.

Lemma re_sub_tokens data out :
  re_sub repl data = Ok out ->
  Forall2 (token_rewritten repl) (tokens data) (tokens out).
Proof.
  revert out. induction data as [|c s Hc IH|m rest Hm IH] using tokens_ind;
    intros out H.
  - rewrite re_sub_nil in H. injection H as <-. constructor.
  - pose proof (re_sub_kind _ _ H) as Hk.
    rewrite (re_sub_other _ _ Hc) in H.
    destruct (re_sub repl s) as [out'|e] eqn:Hs; [|discriminate].
    injection H as <-.
    rewrite (tokens_other c s Hc), (tokens_other c out').
    + constructor; [constructor|]. apply IH. reflexivity.
    + eapply match_prefix_none_kind; [apply TIMECODE_RE_atoms| |exact Hc].
      symmetry. exact Hk.
  - rewrite (re_sub_timecode _ _ Hm) in H.
    destruct (repl m) as [r|e] eqn:Hr; [|discriminate]. simpl in H.
    destruct (re_sub repl rest) as [out'|e] eqn:Hs; [|discriminate].
    injection H as <-.
    rewrite (tokens_timecode m rest Hm), (tokens_timecode r out').
    + constructor; [constructor; exact Hr|]. apply IH. reflexivity.
    + eapply repl_timecode; eassumption.
Qed.

Lemma re_sub_strip data out :
  re_sub repl data = Ok out -> strip_timecodes out = strip_timecodes data.
Proof.
  intros H. apply re_sub_tokens in H. unfold strip_timecodes.
  induction H as [|t t' ts ts' Ht H IH]; [reflexivity|].
  destruct Ht; simpl; [f_equal|]; exact IH.
Qed.

Lemma re_sub_findall data out :
  re_sub repl data = Ok out ->
  Forall2 (fun m r => repl m = Ok r) (re_findall data) (re_findall out).
Proof.
  intros H. apply re_sub_tokens in H. unfold re_findall.
  induction H as [|t t' ts ts' Ht H IH]; [constructor|].
  destruct Ht; simpl; [exact IH|]. constructor; assumption.
Qed.

Lemma re_sub_length data out :
  re_sub repl data = Ok out -> length out = length data.
Proof.
  intros H. apply re_sub_kind in H.
  rewrite <- (length_map kind out), H. apply length_map.
Qed.

(** The substitution returns as soon as every replacement does. *)
Lemma re_sub_total data :
  Forall (fun m => is_ok (repl m) = true) (re_findall data) ->
  exists out, re_sub repl data = Ok out.
Proof.
  induction data as [|c s Hc IH|m rest Hm IH] using tokens_ind; intros H.
  - exists []. reflexivity.
  - unfold re_findall in H. rewrite (tokens_other _ _ Hc) in H. simpl in H.
    destruct (IH H) as [out Hout]. exists (c :: out).
    rewrite (re_sub_other _ _ Hc), Hout. reflexivity.
  - unfold re_findall in H. rewrite (tokens_timecode _ _ Hm) in H. simpl in H.
    inversion H as [|? ? Hr Hrest]; subst.
    destruct (IH Hrest) as [out Hout].
    destruct (repl m) as [r|e] eqn:Hrm; [|discriminate Hr].
    exists (r ++ out). rewrite (re_sub_timecode _ _ Hm), Hrm. simpl.
    rewrite Hout. reflexivity.
Qed.

End Rewriting.

(** ** The timecode codec *)

Lemma digit_char_is_digit d : 0 <= d < 10 -> is_digit (digit_char d) = true.
Proof.
  intros H.
  assert (d = 0 \/ d = 1 \/ d = 2 \/ d = 3 \/ d = 4 \/ d = 5 \/ d = 6 \/
          d = 7 \/ d = 8 \/ d = 9) as Hd by lia.
  repeat destruct Hd as [->|Hd]; try subst d; reflexivity.
Qed.

Lemma digit_value_char d : 0 <= d < 10 -> digit_value (digit_char d) = d.
Proof.
  intros H.
  assert (d = 0 \/ d = 1 \/ d = 2 \/ d = 3 \/ d = 4 \/ d = 5 \/ d = 6 \/
          d = 7 \/ d = 8 \/ d = 9) as Hd by lia.
  repeat destruct Hd as [->|Hd]; try subst d; reflexivity.
Qed.

Lemma digit_value_range c : is_digit c = true -> 0 <= digit_value c < 10.
Proof. unfold is_digit, digit_value. lia. Qed.

Lemma timecode_text_is_timecode d1 d2 d3 d4 d5 d6 d7 d8 d9 :
  is_digit d1 = true -> is_digit d2 = true -> is_digit d3 = true ->
  is_digit d4 = true -> is_digit d5 = true -> is_digit d6 = true ->
  is_digit d7 = true -> is_digit d8 = true -> is_digit d9 = true ->
  is_timecode (timecode_text d1 d2 d3 d4 d5 d6 d7 d8 d9).
Proof.
  intros H1 H2 H3 H4 H5 H6 H7 H8 H9.
  unfold is_timecode, timecode_text, TIMECODE_RE, match_prefix, atom_matches.
  rewrite H1, H2, H3, H4, H5, H6, H7, H8, H9. reflexivity.
Qed.

Lemma match_prefix_cons_inv a re c s m rest :
  match_prefix (a :: re) (c :: s) = Some (m, rest) ->
  atom_matches a c = true /\
  exists m', m = c :: m' /\ match_prefix re s = Some (m', rest).
Proof.
  simpl. destruct (atom_matches a c); [|discriminate].
  destruct (match_prefix re s) as [[m' rest']|]; [|discriminate].
  intros H. injection H as <- <-. eauto.
Qed.

Lemma is_timecode_inv m :
  is_timecode m ->
  exists d1 d2 d3 d4 d5 d6 d7 d8 d9,
    m = timecode_text d1 d2 d3 d4 d5 d6 d7 d8 d9 /\
    is_digit d1 = true /\ is_digit d2 = true /\ is_digit d3 = true /\
    is_digit d4 = true /\ is_digit d5 = true /\ is_digit d6 = true /\
    is_digit d7 = true /\ is_digit d8 = true /\ is_digit d9 = true.
Proof.
  intros H. pose proof (is_timecode_length _ H) as Hl.
  do 12 (destruct m as [|? m]; [discriminate Hl|]).
  destruct m; [|discriminate Hl]. clear Hl.
  unfold is_timecode, TIMECODE_RE in H.
  repeat (apply match_prefix_cons_inv in H; destruct H as (? & ? & _ & H)).
  simpl atom_matches in *.
  repeat match goal with
         | E : Ascii.eqb _ _ = true |- _ => apply Ascii.eqb_eq in E; subst
         end.
  do 9 eexists. unfold timecode_text. repeat split; eassumption.
Qed.

Lemma strptime_timecode_text d1 d2 d3 d4 d5 d6 d7 d8 d9 :
  is_digit d1 = true -> is_digit d2 = true -> is_digit d3 = true ->
  is_digit d4 = true -> is_digit d5 = true -> is_digit d6 = true ->
  is_digit d7 = true -> is_digit d8 = true -> is_digit d9 = true ->
  strptime (timecode_text d1 d2 d3 d4 d5 d6 d7 d8 d9) =
  if (field2 d1 d2 <? 24) && (field2 d3 d4 <? 60) && (field2 d5 d6 <? 60)
  then Ok (mk_datetime ORD_1900 (field2 d1 d2) (field2 d3 d4) (field2 d5 d6)
             (1000 * field3 d7 d8 d9))
  else Raise ValueError.
Proof.
  intros H1 H2 H3 H4 H5 H6 H7 H8 H9.
  pose proof (timecode_text_is_timecode _ _ _ _ _ _ _ _ _
                H1 H2 H3 H4 H5 H6 H7 H8 H9) as Htc.
  unfold strptime. unfold is_timecode in Htc. rewrite Htc.
  unfold timecode_text.
  replace (int_of_digits [d1; d2]) with (field2 d1 d2)
    by (unfold int_of_digits, field2; simpl; lia).
  replace (int_of_digits [d3; d4]) with (field2 d3 d4)
    by (unfold int_of_digits, field2; simpl; lia).
  replace (int_of_digits [d5; d6]) with (field2 d5 d6)
    by (unfold int_of_digits, field2; simpl; lia).
  replace (int_of_digits ([d7; d8; d9] ++ txt "000")) with (1000 * field3 d7 d8 d9)
    by (unfold int_of_digits, field3; simpl; change (digit_value "0") with 0; lia).
  reflexivity.
Qed.

Lemma strptime_is_timecode s t : strptime s = Ok t -> is_timecode s.
Proof.
  unfold strptime. intros H.
  destruct (match_prefix TIMECODE_RE s) as [[m rest]|] eqn:Hm; [|discriminate].
  destruct (match_prefix_split _ _ _ _ Hm) as (Hs & _ & Htc).
  destruct rest as [|c rest].
  - rewrite app_nil_r in Hs. subst m. exact Hm.
  - destruct (is_timecode_inv m Htc) as (d1&d2&d3&d4&d5&d6&d7&d8&d9&->&_).
    discriminate H.
Qed.

Lemma strptime_clock_time s t : strptime s = Ok t -> clock_time t.
Proof.
  intros H. pose proof (strptime_is_timecode _ _ H) as Htc.
  destruct (is_timecode_inv s Htc)
    as (d1&d2&d3&d4&d5&d6&d7&d8&d9&->&H1&H2&H3&H4&H5&H6&H7&H8&H9).
  rewrite strptime_timecode_text in H by assumption.
  apply digit_value_range in H1, H2, H3, H4, H5, H6, H7, H8, H9.
  destruct ((field2 d1 d2 <? 24) && (field2 d3 d4 <? 60) && (field2 d5 d6 <? 60))
    eqn:Hr; [|discriminate].
  injection H as <-. unfold field2, field3 in *.
  split; simpl; try lia.
  eexists. split; [|reflexivity]. lia.
Qed.

Lemma strftime_timecode_text t :
  drop_end 3 (strftime t) =
  timecode_text
    (digit_char (hour t / 10 mod 10)) (digit_char (hour t mod 10))
    (digit_char (minute t / 10 mod 10)) (digit_char (minute t mod 10))
    (digit_char (second t / 10 mod 10)) (digit_char (second t mod 10))
    (digit_char (microsecond t / 10 / 10 / 10 / 10 / 10 mod 10))
    (digit_char (microsecond t / 10 / 10 / 10 / 10 mod 10))
    (digit_char (microsecond t / 10 / 10 / 10 mod 10)).
Proof. reflexivity. Qed.

Lemma mod10_digit n : is_digit (digit_char (n mod 10)) = true.
Proof. apply digit_char_is_digit, Z.mod_pos_bound. lia. Qed.

(** Whatever the time, what is written has the shape of a timecode. *)
Lemma strftime_is_timecode t : is_timecode (drop_end 3 (strftime t)).
Proof.
  rewrite strftime_timecode_text.
  apply timecode_text_is_timecode; apply mod10_digit.
Qed.

Lemma field2_digits n :
  0 <= n < 100 ->
  field2 (digit_char (n / 10 mod 10)) (digit_char (n mod 10)) = n.
Proof.
  intros H. unfold field2.
  rewrite !digit_value_char by (apply Z.mod_pos_bound; lia).
  Z.div_mod_to_equations. lia.
Qed.

Lemma field3_digits n :
  0 <= n < 1000000 ->
  field3 (digit_char (n / 10 / 10 / 10 / 10 / 10 mod 10))
         (digit_char (n / 10 / 10 / 10 / 10 mod 10))
         (digit_char (n / 10 / 10 / 10 mod 10)) = n / 1000.
Proof.
  intros H. unfold field3.
  rewrite !digit_value_char by (apply Z.mod_pos_bound; lia).
  Z.div_mod_to_equations. lia.
Qed.

(** Parsing what was formatted: the time of day comes back, cut to the
    millisecond. *)
Lemma strptime_strftime t :
  0 <= hour t < 24 -> 0 <= minute t < 60 -> 0 <= second t < 60 ->
  0 <= microsecond t < 1000000 ->
  strptime (drop_end 3 (strftime t)) =
  Ok (mk_datetime ORD_1900 (hour t) (minute t) (second t)
        (1000 * (microsecond t / 1000))).
Proof.
  intros Hh Hm Hs Hu. rewrite strftime_timecode_text.
  rewrite strptime_timecode_text by apply mod10_digit.
  rewrite !field2_digits, field3_digits by lia.
  replace (hour t <? 24) with true by lia.
  replace (minute t <? 60) with true by lia.
  replace (second t <? 60) with true by lia.
  reflexivity.
Qed.

Lemma datetime_add_fields t delta t' :
  datetime_add t delta = Ok t' ->
  0 <= hour t' < 24 /\ 0 <= minute t' < 60 /\ 0 <= second t' < 60 /\
  0 <= microsecond t' < 1000000 /\
  time_us t' = (time_us t + delta) mod US_PER_DAY.
Proof.
  unfold datetime_add.
  destruct ((MINORD <=? _) && (_ <=? MAXORD)); [|discriminate].
  intros H. injection H as <-. unfold time_us at 1. simpl.
  pose proof (Z.mod_pos_bound (time_us t + delta) US_PER_DAY eq_refl) as Hr.
  set (r := (time_us t + delta) mod US_PER_DAY) in *. clearbody r.
  unfold US_PER_DAY in Hr.
  change 3600000000 with (1000000 * 60 * 60).
  change 60000000 with (1000000 * 60).
  rewrite <- !Z.div_div by lia.
  repeat split; unfold time_us; simpl; Z.div_mod_to_equations; lia.
Qed.

Lemma round_half_even_integer x k : (x == inject_Z k)%Q -> round_half_even x = k.
Proof.
  intros H. unfold round_half_even.
  rewrite (Qfloor_comp _ _ H), Qfloor_Z.
  assert ((x - inject_Z k ?= 1 # 2)%Q = Lt) as ->; [|reflexivity].
  apply Qlt_alt. rewrite H. unfold Qminus. rewrite Qplus_opp_r. reflexivity.
Qed.

Lemma float_pow_one n : exists p, float_pow 1 n = Ok p /\ (p == 1)%Q.
Proof.
  unfold float_pow. simpl (Qeq_bool 1 0 && _).
  exists (1 ^ n)%Q. split; [|apply Qpower_1].
  destruct (Qle_bool (inject_Z (2 ^ 1024)) (Qabs (1 ^ n))) eqn:Hle; [|reflexivity].
  apply Qle_bool_iff in Hle. rewrite Qpower_1 in Hle.
  exfalso. apply Hle. reflexivity.
Qed.

(** With no growth the delay is the same for every timecode, and the
    computation is one on integers. *)
Lemma get_delayed_time_constant s d :
  subsync.get_delayed_time s d 1 =
  (time ← strptime s;
   delta ← (if Z.abs (1000 * d / US_PER_DAY) <=? 999999999 then Ok (1000 * d)
            else Raise OverflowError);
   shifted ← datetime_add time delta;
   Ok (drop_end 3 (strftime shifted))).
Proof.
  unfold subsync.get_delayed_time.
  destruct (strptime s) as [t|e]; [|reflexivity]. simpl.
  destruct (float_pow_one (subsync.calc_ms t)) as (p & -> & Hp). simpl.
  unfold timedelta.
  rewrite (round_half_even_integer _ (1000 * d)); [reflexivity|].
  rewrite Hp, inject_Z_mult. ring.
Qed.

Lemma clock_time_us t :
  clock_time t -> time_us t = 1000 * subsync.calc_ms t /\
                  0 <= subsync.calc_ms t < MS_PER_DAY.
Proof.
  intros [_ Hh Hm Hs (k & Hk & Hus)].
  unfold time_us, subsync.calc_ms, MS_PER_DAY. rewrite Hus.
  replace (1000 * k / 1000) with k by (Z.div_mod_to_equations; lia). lia.
Qed.

(** The time that is written is the delayed one modulo 24 hours. *)
Lemma parse_delayed_constant s t d s' :
  strptime s = Ok t -> subsync.get_delayed_time s d 1 = Ok s' ->
  parse_ms s' = Ok ((subsync.calc_ms t + d) mod MS_PER_DAY).
Proof.
  intros Ht H. rewrite get_delayed_time_constant, Ht in H. simpl in H.
  destruct (Z.abs (1000 * d / US_PER_DAY) <=? 999999999); [|discriminate].
  simpl in H.
  destruct (datetime_add t (1000 * d)) as [t'|e] eqn:Hadd; [|discriminate].
  injection H as <-.
  destruct (datetime_add_fields _ _ _ Hadd) as (Hh & Hm & Hs & Hu & Hus).
  destruct (clock_time_us t (strptime_clock_time _ _ Ht)) as [Hms _].
  unfold parse_ms. rewrite strptime_strftime by assumption. simpl. f_equal.
  rewrite Hms in Hus. unfold time_us in Hus.
  unfold subsync.calc_ms at 1. simpl.
  unfold US_PER_DAY in Hus. unfold MS_PER_DAY.
  set (x := subsync.calc_ms t + d) in *.
  replace (1000 * subsync.calc_ms t + 1000 * d) with (1000 * x) in Hus by lia.
  clearbody x. Z.div_mod_to_equations. lia.
Qed.

Lemma get_delayed_time_constant_ok s t d :
  strptime s = Ok t -> 0 <= subsync.calc_ms t + d < MS_PER_DAY ->
  exists s', subsync.get_delayed_time s d 1 = Ok s'.
Proof.
  intros Ht Hd. rewrite get_delayed_time_constant, Ht. simpl.
  destruct (clock_time_us t (strptime_clock_time _ _ Ht)) as [Hms Hr].
  unfold MS_PER_DAY in *.
  replace (Z.abs (1000 * d / US_PER_DAY) <=? 999999999) with true
    by (unfold US_PER_DAY; Z.div_mod_to_equations; lia).
  simpl. unfold datetime_add. rewrite Hms.
  rewrite (strptime_clock_time _ _ Ht).(clock_ordinal t).
  replace ((1000 * subsync.calc_ms t + 1000 * d) / US_PER_DAY) with 0
    by (unfold US_PER_DAY; Z.div_mod_to_equations; lia).
  simpl. eauto.
Qed.

(** ** Timecodes and their values *)


Lemma strptime_not_time_of_day m :
  is_timecode m -> is_time_of_day m = false -> strptime m = Raise ValueError.
Proof.
  intros Htc Hd.
  destruct (is_timecode_inv m Htc)
    as (d1&d2&d3&d4&d5&d6&d7&d8&d9&->&H1&H2&H3&H4&H5&H6&H7&H8&H9).
  rewrite strptime_timecode_text by assumption.
  unfold is_time_of_day, timecode_text in Hd. rewrite Hd. reflexivity.
Qed.



(** ** Line ends *)

Lemma digit_not_CR c : is_digit c = true -> Ascii.eqb c CR = false.
Proof. intros H. apply Ascii.eqb_neq. intros ->. discriminate H. Qed.

Lemma pattern_atom_not_newline a :
  pattern_atom a -> atom_matches a CR = false /\ atom_matches a LF = false.
Proof. intros [->|[->| ->]]; split; reflexivity. Qed.

Lemma universal_newlines_cons c s :
  Ascii.eqb c CR = false -> universal_newlines (c :: s) = c :: universal_newlines s.
Proof. intros H. simpl. rewrite H. reflexivity. Qed.

Lemma universal_newlines_CR s :
  exists s', universal_newlines (CR :: s) = LF :: s' /\
             (universal_newlines s = s' \/ universal_newlines s = LF :: s').
Proof.
  destruct s as [|c s]; [exists []; auto|].
  change (universal_newlines (CR :: c :: s))
    with (LF :: if Ascii.eqb c LF then universal_newlines s
                else universal_newlines (c :: s)).
  destruct (Ascii.eqb c LF) eqn:Hc.
  - apply Ascii.eqb_eq in Hc. subst c. exists (universal_newlines s).
    split; [reflexivity|]. right. reflexivity.
  - exists (universal_newlines (c :: s)). auto.
Qed.

Lemma universal_newlines_timecode m rest :
  is_timecode m -> universal_newlines (m ++ rest) = m ++ universal_newlines rest.
Proof.
  intros H.
  destruct (is_timecode_inv m H)
    as (d1&d2&d3&d4&d5&d6&d7&d8&d9&->&H1&H2&H3&H4&H5&H6&H7&H8&H9).
  apply digit_not_CR in H1, H2, H3, H4, H5, H6, H7, H8, H9.
  unfold timecode_text. cbn [app].
  repeat (rewrite universal_newlines_cons by (assumption || reflexivity)).
  reflexivity.
Qed.

Lemma match_prefix_newlines_none re s :
  Forall pattern_atom re ->
  match_prefix re s = None -> match_prefix re (universal_newlines s) = None.
Proof.
  intros Hre. revert s. induction Hre as [|a re Ha Hre IH]; intros s H.
  - discriminate H.
  - destruct s as [|c s]; [reflexivity|].
    destruct (pattern_atom_not_newline a Ha) as [Hcr Hlf].
    destruct (Ascii.eqb c CR) eqn:Hc.
    + destruct (universal_newlines_CR s) as (s' & Hs' & _).
      apply Ascii.eqb_eq in Hc. subst c. rewrite Hs'.
      cbn [match_prefix]. rewrite Hlf. reflexivity.
    + rewrite (universal_newlines_cons _ _ Hc). cbn [match_prefix] in H |- *.
      destruct (atom_matches a c); [|reflexivity].
      destruct (match_prefix re s) as [[m rest]|] eqn:Hm; [discriminate H|].
      rewrite (IH _ Hm). reflexivity.
Qed.

Lemma re_findall_other c s :
  match_prefix TIMECODE_RE (c :: s) = None -> re_findall (c :: s) = re_findall s.
Proof. intros H. unfold re_findall. rewrite (tokens_other _ _ H). reflexivity. Qed.

Lemma re_findall_timecode m rest :
  is_timecode m -> re_findall (m ++ rest) = m :: re_findall rest.
Proof. intros H. unfold re_findall. rewrite (tokens_timecode _ _ H). reflexivity. Qed.

(** The translation of the line ends leaves the timecodes as they are. *)
Lemma re_findall_newlines data :
  re_findall (universal_newlines data) = re_findall data.
Proof.
  induction data as [|c s Hc IH|m rest Hm IH] using tokens_ind.
  - reflexivity.
  - rewrite (re_findall_other _ _ Hc).
    destruct (Ascii.eqb c CR) eqn:Hcr.
    + apply Ascii.eqb_eq in Hcr. subst c.
      destruct (universal_newlines_CR s) as (s' & Hs' & [Hs|Hs]).
      * rewrite Hs', re_findall_other by reflexivity. rewrite <- Hs. exact IH.
      * rewrite Hs', re_findall_other by reflexivity.
        rewrite <- IH, Hs, re_findall_other by reflexivity. reflexivity.
    + pose proof (match_prefix_newlines_none _ _ TIMECODE_RE_atoms Hc) as Hn.
      rewrite (universal_newlines_cons _ _ Hcr) in Hn |- *.
      rewrite (re_findall_other _ _ Hn). exact IH.
  - rewrite (universal_newlines_timecode _ _ Hm), !re_findall_timecode by exact Hm.
    rewrite IH. reflexivity.
Qed.

Lemma is_delay_valid_newlines delay data :
  subsync.is_delay_valid delay (universal_newlines data) =
  subsync.is_delay_valid delay data.
Proof.
  unfold subsync.is_delay_valid, subsync.search_group, re_search.
  rewrite re_findall_newlines. reflexivity.
Qed.

Lemma universal_newlines_length s : (length (universal_newlines s) <= length s)%nat.
Proof.
  remember (length s) as n eqn:Hn. revert s Hn.
  induction n as [n IH] using lt_wf_ind. intros s Hn.
  destruct s as [|c s]; [simpl; lia|].
  destruct (Ascii.eqb c CR) eqn:Hc.
  - apply Ascii.eqb_eq in Hc. subst c.
    destruct s as [|c s]; [rewrite Hn; apply Nat.le_refl|].
    change (universal_newlines (CR :: c :: s))
      with (LF :: if Ascii.eqb c LF then universal_newlines s
                  else universal_newlines (c :: s)).
    cbn [length] in Hn.
    destruct (Ascii.eqb c LF).
    + pose proof (IH (length s) ltac:(lia) s eq_refl).
      cbn [length]. lia.
    + pose proof (IH (S (length s)) ltac:(lia) (c :: s) eq_refl) as H.
      cbn [length] in H |- *. lia.
  - rewrite (universal_newlines_cons _ _ Hc). cbn [length] in Hn |- *.
    pose proof (IH (length s) ltac:(lia) s eq_refl).
    lia.
Qed.


(** ** Runs *)

Lemma report_report w es es' : report (report w es) es' = report w (es ++ es').
Proof. unfold report. simpl. rewrite <- app_assoc. reflexivity. Qed.

Lemma report_nil w : report w [] = w.
Proof. destruct w. unfold report. simpl. rewrite app_nil_r. reflexivity. Qed.

Lemma emit_run e w : emit e w = (Ok tt, report w [e]).
Proof. reflexivity. Qed.

(** The whole of [sync_sub], case by case. *)
Lemma sync_sub_run file delay growth w :
  subsync.sync_sub file delay growth w =
  match files w !! realpath w file with
  | None => (Raise FileNotFoundError, report w [PrintSyncing file; Open file ModeR])
  | Some stored =>
      let data := universal_newlines stored in
      match subsync.is_delay_valid delay data with
      | Raise e => (Raise e, report w [PrintSyncing file; Open file ModeR])
      | Ok false =>
          (Ok tt, report w [PrintSyncing file; Open file ModeR; PrintUnderflow])
      | Ok true =>
          match re_sub (fun m => subsync.get_delayed_time m delay growth) data with
          | Raise e =>
              (Raise e, report w [PrintSyncing file; Open file ModeR;
                                  Open file ModeRPlus])
          | Ok new =>
              (Ok tt, written file new
                        (report w [PrintSyncing file; Open file ModeR;
                                   Open file ModeRPlus; Write file new]))
          end
      end
  end.
Proof.
  unfold subsync.sync_sub, open_read, open_rplus, write, content, store, lift.
  unfold mbind, prog_bind, mret, prog_ret, emit, written, report. simpl.
  destruct (files w !! realpath w file) as [stored|] eqn:Hf;
    [|rewrite <- ?app_assoc; reflexivity].
  cbv zeta.
  destruct (subsync.is_delay_valid delay _) as [[|]|e]; simpl;
    [|rewrite <- ?app_assoc; reflexivity..].
  rewrite Hf.
  destruct (re_sub _ _) as [new|e]; simpl;
    rewrite <- ?app_assoc; reflexivity.
Qed.

Lemma for_each_cons {A} (x : A) l body w :
  for_each (x :: l) body w =
  match body x w with
  | (Ok _, w') => for_each l body w'
  | (Raise e, w') => (Raise e, w')
  end.
Proof. reflexivity. Qed.

Lemma for_each_print subs w :
  for_each subs (fun file => emit (PrintFile file)) w =
  (Ok tt, report w (map PrintFile subs)).
Proof.
  revert w. induction subs as [|f subs IH]; intros w.
  - simpl. rewrite report_nil. reflexivity.
  - rewrite for_each_cons, emit_run, IH, report_report. reflexivity.
Qed.

Lemma confirm_sync_run subs delay growth w :
  subsync.confirm_sync subs delay growth w =
  let w' := report w (PrintPreview delay growth :: map PrintFile subs ++ [Prompt]) in
  match stdin w with
  | [] => (Raise EOFError, w')
  | line :: rest =>
      (Ok (bool_decide (lower line = txt "y")),
       mk_world (realpath w) (files w) (dirs w) rest (trace w'))
  end.
Proof.
  unfold subsync.confirm_sync, input, readline.
  unfold mbind, prog_bind, mret, prog_ret.
  rewrite emit_run, for_each_print, report_report, emit_run, report_report.
  simpl. destruct (stdin w); reflexivity.
Qed.

Lemma get_args_world a w : (subsync.get_args a w).2 = w.
Proof.
  unfold subsync.get_args, lift, reads, mbind, prog_bind, mret, prog_ret.
  destruct (match subsync.arg_growth a with
            | Some x => subsync.growth_type x
            | None => Ok 1%Q
            end); [|reflexivity].
  destruct (isfile _ w && negb _); reflexivity.
Qed.

Lemma get_sub_files_world tgt w : (subsync.get_sub_files tgt w).2 = w.
Proof.
  unfold subsync.get_sub_files, listdir, reads, mbind, prog_bind, mret, prog_ret.
  destruct (isfile tgt w); [reflexivity|].
  destruct (isdir tgt w); [|reflexivity].
  destruct (dirs w !! realpath w tgt); reflexivity.
Qed.



Lemma get_delayed_time_is_timecode delay growth m r :
  is_timecode m -> subsync.get_delayed_time m delay growth = Ok r -> is_timecode r.
Proof.
  intros _. unfold subsync.get_delayed_time.
  destruct (strptime m) as [t|]; [|discriminate]. simpl.
  destruct (float_pow growth _) as [p|]; [|discriminate]. simpl.
  destruct (timedelta _) as [delta|]; [|discriminate]. simpl.
  destruct (datetime_add t delta) as [t'|]; [|discriminate]. simpl.
  intros H. injection H as <-. apply strftime_is_timecode.
Qed.

(** A run of [main] that reaches the prompt and is given [y] is the loop
    over the working set. *)
Lemma main_accepted a w delay tgt growth file subs line rest :
  subsync.get_args a w = (Ok (delay, tgt, growth), w) ->
  subsync.get_sub_files tgt w = (Ok (Some (file :: subs)), w) ->
  stdin w = line :: rest ->
  lower line = txt "y" ->
  subsync.main a w =
  apply_all (file :: subs) delay growth
    (mk_world (realpath w) (files w) (dirs w) rest
       (trace w ++ PrintPreview delay growth ::
                   map PrintFile (file :: subs) ++ [Prompt])).
Proof.
  intros Ha Hs Hin Hy. unfold subsync.main.
  unfold mbind at 1. unfold prog_bind. rewrite Ha.
  unfold mbind at 1. unfold prog_bind. rewrite Hs.
  unfold mbind at 1. unfold prog_bind.
  rewrite confirm_sync_run, Hin. cbv zeta.
  rewrite bool_decide_eq_true_2 by exact Hy. reflexivity.
Qed.

(** What [sync_sub] writes is as long as what it read, which is not longer
    than the file: the write leaves the file with the length it had, and,
    when the file has no carriage return, with the new text and nothing
    else. *)
Lemma resync_length stored delay growth new :
  re_sub (fun m => subsync.get_delayed_time m delay growth)
         (universal_newlines stored) = Ok new ->
  length new = length (universal_newlines stored) /\
  length (overwrite new stored) = length stored.
Proof.
  intros H.
  pose proof (re_sub_length _ (get_delayed_time_is_timecode delay growth) _ _ H)
    as Hl.
  split; [exact Hl|].
  pose proof (universal_newlines_length stored).
  unfold overwrite. rewrite length_app, length_drop. lia.
Qed.


(** ** The resynchroniser *)

(** C5. The output of the resynchroniser, when it returns one, has as many
    timecode occurrences as the input, the k-th of them being the delayed
    k-th occurrence of the input, and what is left of the output once its
    timecodes are taken out is what is left of the input. *)
Theorem resync_preserves_document data delay growth out :
  re_sub (fun m => subsync.get_delayed_time m delay growth) data = Ok out ->
  length (re_findall out) = length (re_findall data) /\
  Forall2 (fun m r => subsync.get_delayed_time m delay growth = Ok r)
          (re_findall data) (re_findall out) /\
  strip_timecodes out = strip_timecodes data.
Proof.
  intros H.
  pose proof (get_delayed_time_is_timecode delay growth) as Htc.
  pose proof (re_sub_findall _ Htc _ _ H) as Hall.
  split; [|split].
  - symmetry. exact (Forall2_length _ _ _ Hall).
  - exact Hall.
  - exact (re_sub_strip _ Htc _ _ H).
Qed.

Lemma resync_preserves_document_witness :
  length (re_findall (txt "1
00:00:11,500 --> 00:05:01,500
Hello")) = length (re_findall sample_document) /\
  strip_timecodes (txt "1
00:00:11,500 --> 00:05:01,500
Hello") = strip_timecodes sample_document.
Proof.
  assert (H : re_sub (fun m => subsync.get_delayed_time m 1500 1) sample_document
              = Ok (txt "1
00:00:11,500 --> 00:05:01,500
Hello")) by (vm_compute; reflexivity).
  destruct (resync_preserves_document _ _ _ _ H) as (Hl & _ & Hs).
  split; assumption.
Defined.

(** ** The codec *)

(** C6, as amended.  For every number of milliseconds within a day, from 0
    to 24 * 3600 * 1000 - 1, the timecode that is written for it is parsed
    back to it. *)
Theorem codec_round_trip_within_a_day ms :
  0 <= ms < MS_PER_DAY ->
  exists s, format_ms ms = Ok s /\ is_timecode s /\ parse_ms s = Ok ms.
Proof.
  intros Hms. unfold format_ms.
  assert (Ht : strptime (txt "00:00:00,000") = Ok (mk_datetime ORD_1900 0 0 0 0))
    by reflexivity.
  destruct (get_delayed_time_constant_ok _ _ ms Ht) as [s Hs]; [exact Hms|].
  exists s. split; [exact Hs|]. split.
  - eapply get_delayed_time_is_timecode; [|exact Hs].
    eapply strptime_is_timecode. exact Ht.
  - rewrite (parse_delayed_constant _ _ _ _ Ht Hs).
    change (subsync.calc_ms (mk_datetime ORD_1900 0 0 0 0)) with 0.
    rewrite Z.add_0_l, Z.mod_small by exact Hms. reflexivity.
Qed.

Lemma codec_round_trip_within_a_day_witness :
  exists s, format_ms 3723004 = Ok s /\ is_timecode s /\ parse_ms s = Ok 3723004.
Proof.
  apply (codec_round_trip_within_a_day 3723004).
  unfold MS_PER_DAY. lia.
Defined.

(** C6, the claim as stated, fails from 24 hours on: the timecode written
    for 24 hours is that of midnight, and an hour field of 24 is refused by
    the parser. *)
Lemma codec_round_trip_fails_at_24_hours :
  ~ (forall ms, 0 <= ms <= 99 * 3600 * 1000 - 1 ->
       exists s, format_ms ms = Ok s /\ parse_ms s = Ok ms).
Proof.
  intros H. destruct (H 86400000) as (s & Hs & Hp); [lia|].
  assert (Hf : format_ms 86400000 = Ok (txt "00:00:00,000"))
    by (vm_compute; reflexivity).
  rewrite Hf in Hs. injection Hs as <-.
  vm_compute in Hp. discriminate Hp.
Qed.

Example parse_hour_24 : parse_ms (txt "24:00:00,000") = Raise ValueError.
Proof. reflexivity. Qed.

Example format_one_hour : format_ms 3723004 = Ok (txt "01:02:03,004").
Proof. vm_compute. reflexivity. Qed.

(** ** The validity guard *)




(** C4.  A delayed time that is negative is not refused: with a delay of
    -1 ms and a growth factor of 2 the guard accepts a document that starts
    at 1 ms, the delayed times are -1 ms and -2 ms, and what is written for
    them are times of the day before. *)
Theorem negative_delayed_time_is_written :
  let doc := txt "1
00:00:00,001 --> 00:00:00,002
Hi" in
  let w := world_of [("a.srt"%string, doc)] [] [] in
  subsync.is_delay_valid (-1) doc = Ok true /\
  (inject_Z 1 + inject_Z (-1) * 2 ^ 1 < 0)%Q /\
  subsync.get_delayed_time (txt "00:00:00,001") (-1) 2 = Ok (txt "23:59:59,999") /\
  (subsync.sync_sub "a.srt" (-1) 2 w).1 = Ok tt /\
  files (subsync.sync_sub "a.srt" (-1) 2 w).2 !! "a.srt"%string = Some (txt "1
23:59:59,999 --> 23:59:59,998
Hi").
Proof.
  cbv zeta. split; [reflexivity|]. split; [reflexivity|].
  split; [vm_compute; reflexivity|]. split; vm_compute; reflexivity.
Qed.

(** ** The batch *)

(** C7, as amended.  A document that the guard rejects is reported and left
    as it is, and the run goes on with the documents that follow it. *)
Theorem guard_rejection_skips_document file rest delay growth w data :
  files w !! realpath w file = Some data ->
  subsync.is_delay_valid delay data = Ok false ->
  apply_all (file :: rest) delay growth w =
  apply_all rest delay growth
    (report w [PrintSyncing file; Open file ModeR; PrintUnderflow]).
Proof.
  intros Hf Hv. unfold apply_all.
  rewrite for_each_cons, sync_sub_run, Hf. cbv zeta.
  rewrite is_delay_valid_newlines, Hv. reflexivity.
Qed.

Lemma guard_rejection_skips_document_witness :
  apply_all ["a.srt"; "b.srt"]%string (-5000) 1
    (world_of [("a.srt"%string, early_document); ("b.srt"%string, late_document)]
              [] []) =
  apply_all ["b.srt"%string] (-5000) 1
    (report (world_of [("a.srt"%string, early_document);
                       ("b.srt"%string, late_document)] [] [])
            [PrintSyncing "a.srt"; Open "a.srt" ModeR; PrintUnderflow]).
Proof.
  apply (guard_rejection_skips_document "a.srt" ["b.srt"%string] (-5000) 1
           (world_of [("a.srt"%string, early_document);
                      ("b.srt"%string, late_document)] [] [])
           early_document); reflexivity.
Defined.

(** C7, the claim as stated, fails for a document without a timecode: the
    [AttributeError] of the guard ends the run, and the document that
    follows, which would have been delayed, is neither announced nor
    changed. *)
Lemma batch_aborts_on_document_without_timecode :
  let r := subsync.main (subsync.mk_argv 500 None None) batch_world in
  r.1 = Raise AttributeError /\
  (PrintSyncing "b.srt" ∉ trace r.2) /\
  files r.2 !! "b.srt"%string = Some late_document /\
  files (subsync.sync_sub "b.srt" 500 1 batch_world).2 !! "b.srt"%string =
    Some (txt "1
00:01:00,500 --> 00:01:02,500
Bye").
Proof.
  cbv zeta. split; [vm_compute; reflexivity|]. split; [|split].
  - assert (trace (subsync.main (subsync.mk_argv 500 None None) batch_world).2 =
            [PrintPreview 500 1; PrintFile "a.srt"; PrintFile "b.srt"; Prompt;
             PrintSyncing "a.srt"; Open "a.srt" ModeR]) as ->
      by (vm_compute; reflexivity).
    intros H. repeat (apply elem_of_cons in H as [H|H]; [discriminate H|]).
    inversion H.
  - vm_compute. reflexivity.
  - vm_compute. reflexivity.
Qed.

(** C8. When the answer to the prompt is not [y], no document is changed. *)
Theorem declined_run_changes_nothing a w line rest :
  stdin w = line :: rest ->
  lower line <> txt "y" ->
  files (subsync.main a w).2 = files w.
Proof.
  intros Hin Hno. unfold subsync.main. unfold mbind at 1. unfold prog_bind.
  pose proof (get_args_world a w) as Hw.
  destruct (subsync.get_args a w) as [[[[delay tgt] growth]|e] w1];
    simpl in Hw; subst w1; [|reflexivity].
  unfold mbind, prog_bind.
  pose proof (get_sub_files_world tgt w) as Hw.
  destruct (subsync.get_sub_files tgt w) as [[subs|e] w1];
    simpl in Hw; subst w1; [|reflexivity].
  destruct subs as [[|f subs]|]; [reflexivity| |reflexivity].
  rewrite confirm_sync_run, Hin. cbv zeta.
  rewrite bool_decide_eq_false_2 by exact Hno. reflexivity.
Qed.

Lemma declined_run_changes_nothing_witness :
  files (subsync.main (subsync.mk_argv 500 None None)
           (world_of [("b.srt"%string, late_document)]
                     [("."%string, ["b.srt"%string])] [txt "n"])).2 =
  files (world_of [("b.srt"%string, late_document)]
                  [("."%string, ["b.srt"%string])] [txt "n"]).
Proof.
  apply (declined_run_changes_nothing (subsync.mk_argv 500 None None)
           (world_of [("b.srt"%string, late_document)]
                     [("."%string, ["b.srt"%string])] [txt "n"])
           (txt "n") []).
  - reflexivity.
  - discriminate.
Defined.





(** In that world the run rewrites the document of the working directory,
    and leaves the one of the directory that was its target. *)
Example directory_target_rewrites_other_file :
  let r := subsync.main (subsync.mk_argv 500 (Some "subs"%string) None)
             directory_world in
  r.1 = Ok tt /\
  files r.2 !! "/home/subs/a.srt"%string = Some late_document /\
  files r.2 !! "/home/a.srt"%string = Some (txt "1
00:00:03,500 --> 00:00:04,500
Hi").
Proof. cbv zeta. repeat split; vm_compute; reflexivity. Qed.

(** ** The delay estimator *)

Lemma py_index_first {A} (l : list A) x : head l = Some x -> py_index l 0 = Ok x.
Proof.
  destruct l as [|y l]; [discriminate|]. intros H. injection H as ->.
  unfold py_index. change (0 <? 0) with false. cbv iota.
  assert ((0 <? Z.of_nat (length (x :: l))) = true) as ->
    by (apply Z.ltb_lt; simpl length; lia).
  reflexivity.
Qed.

Lemma py_index_penultimate {A} (pre : list A) a b :
  py_index (pre ++ [a; b]) (-2) = Ok a.
Proof.
  unfold py_index. change (-2 <? 0) with true. cbv iota.
  rewrite length_app. simpl length.
  assert ((0 <=? -2 + Z.of_nat (length pre + 2)) = true) as ->
    by (apply Z.leb_le; lia).
  assert ((-2 + Z.of_nat (length pre + 2) <? Z.of_nat (length pre + 2)) = true)
    as -> by (apply Z.ltb_lt; lia).
  cbn [andb].
  replace (Z.to_nat (-2 + Z.of_nat (length pre + 2))) with (length pre + 0)%nat
    by lia.
  rewrite lookup_app_r, Nat.add_comm, Nat.add_sub by lia. reflexivity.
Qed.

Lemma calc_delay_run data time1 time2 first pre penultimate final t1 t2 :
  head (re_findall data) = Some first ->
  re_findall data = pre ++ [penultimate; final] ->
  strptime first = Ok t1 ->
  strptime penultimate = Ok t2 ->
  delaycalc.calc_delay data time1 time2 =
  growth_model (time1 - delaycalc.calc_ms t1) (time2 - delaycalc.calc_ms t2)
               (time1 - time2).
Proof.
  intros Hfirst Hpen Ht1 Ht2. unfold delaycalc.calc_delay.
  rewrite (py_index_first _ _ Hfirst). cbn [mbind result_bind].
  rewrite Ht1. cbn [mbind result_bind].
  rewrite Hpen, py_index_penultimate. cbn [mbind result_bind].
  rewrite Ht2. reflexivity.
Qed.

Lemma math_pow_positive x y : (0 < x)%R -> delaycalc.math_pow x y = Ok (Rpower x y).
Proof.
  intros H. unfold delaycalc.math_pow.
  destruct (Rlt_dec 0 x); [reflexivity|contradiction].
Qed.

Lemma growth_model_positive delay1 delay2 interval :
  0 < delay1 * delay2 -> interval <> 0 ->
  growth_model delay1 delay2 interval =
  Ok (IZR delay1, Rpower (IZR delay1 / IZR delay2) (1 / IZR interval)).
Proof.
  intros Hd Hi. unfold growth_model, delaycalc.truediv.
  replace (delay2 =? 0) with false by nia.
  replace (interval =? 0) with false by lia.
  cbn [mbind result_bind].
  rewrite math_pow_positive; [reflexivity|].
  assert (IZR delay2 <> 0%R) as Hd2 by (apply not_0_IZR; nia).
  replace (IZR delay1 / IZR delay2)%R
    with (IZR (delay1 * delay2) * (/ IZR delay2 * / IZR delay2))%R
    by (rewrite mult_IZR; field; exact Hd2).
  apply Rmult_lt_0_compat; [apply IZR_lt; exact Hd|].
  rewrite <- Rinv_mult. apply Rinv_0_lt_compat.
  rewrite <- mult_IZR. apply IZR_lt. nia.
Qed.





Lemma Rpower_below_one x y : (1 < x)%R -> (y < 0)%R -> (Rpower x y < 1)%R.
Proof.
  intros Hx Hy. unfold Rpower. rewrite <- exp_0. apply exp_increasing.
  assert (0 < ln x)%R by (rewrite <- ln_1; apply ln_increasing; lra).
  nra.
Qed.

Lemma Rpower_above_one x y : (0 < x < 1)%R -> (y < 0)%R -> (1 < Rpower x y)%R.
Proof.
  intros Hx Hy. unfold Rpower. rewrite <- exp_0. apply exp_increasing.
  assert (ln x < 0)%R by (rewrite <- ln_1; apply ln_increasing; lra).
  nra.
Qed.

(** With two occurrences only, the second-to-last occurrence is the first
    one, and both delays are measured from it. *)
Lemma calc_delay_single_cue data :
  re_findall data = [txt "00:00:10,000"; txt "00:05:00,000"] ->
  delaycalc.calc_delay data 11000 301000 =
  Ok (1000%R, Rpower (1000 / 291000) (1 / IZR (11000 - 301000))).
Proof.
  intros H.
  rewrite (calc_delay_run data 11000 301000 (txt "00:00:10,000") []
             (txt "00:00:10,000") (txt "00:05:00,000")
             (mk_datetime ORD_1900 0 0 10 0) (mk_datetime ORD_1900 0 0 10 0));
    [|rewrite H; reflexivity|exact H|reflexivity|reflexivity].
  change (11000 - delaycalc.calc_ms (mk_datetime ORD_1900 0 0 10 0)) with 1000.
  change (301000 - delaycalc.calc_ms (mk_datetime ORD_1900 0 0 10 0)) with 291000.
  apply growth_model_positive; lia.
Qed.

(** C2, as amended.  For a document whose timecode occurrences are exactly
    [00:00:10,000] and [00:05:00,000], the estimator with the anchors 11000
    and 301000 returns the initial delay 1000 and the growth factor
    [(1000 / 291000) ^ (1 / (11000 - 301000))], which is greater than 1:
    the second delay is 301000 - 10000. *)
Theorem single_cue_estimate data :
  re_findall data = [txt "00:00:10,000"; txt "00:05:00,000"] ->
  delaycalc.calc_delay data 11000 301000 =
    Ok (1000%R, Rpower (1000 / 291000) (1 / IZR (11000 - 301000))) /\
  (1 < Rpower (1000 / 291000) (1 / IZR (11000 - 301000)))%R.
Proof.
  intros H. split; [exact (calc_delay_single_cue data H)|].
  apply Rpower_above_one.
  - lra.
  - change (11000 - 301000) with (-290000). lra.
Qed.

Lemma single_cue_estimate_witness :
  delaycalc.calc_delay sample_document 11000 301000 =
    Ok (1000%R, Rpower (1000 / 291000) (1 / IZR (11000 - 301000))) /\
  (1 < Rpower (1000 / 291000) (1 / IZR (11000 - 301000)))%R.
Proof. apply (single_cue_estimate sample_document). reflexivity. Defined.

(** C2, the claim as stated, fails: the growth factor is not 1. *)
Lemma single_cue_estimate_is_not_one :
  re_findall sample_document = [txt "00:00:10,000"; txt "00:05:00,000"] /\
  delaycalc.calc_delay sample_document 11000 301000 <> Ok (1000%R, 1%R).
Proof.
  split; [reflexivity|].
  rewrite (calc_delay_single_cue sample_document eq_refl).
  intros H. injection H as H.
  assert (1 < Rpower (1000 / 291000) (1 / IZR (11000 - 301000)))%R as Hgt.
  { apply Rpower_above_one; [lra|]. change (11000 - 301000) with (-290000). lra. }
  rewrite H in Hgt. lra.
Qed.

(** ** The growth factor of a model *)

(** C9, as amended.  The growth factor that [get_args] returns, be it the
    one of the command line or the default one, is at least 1. *)
Theorem user_growth_at_least_one a w delay tgt growth w' :
  subsync.get_args a w = (Ok (delay, tgt, growth), w') -> (1 <= growth)%Q.
Proof.
  unfold subsync.get_args, subsync.growth_type, lift, reads.
  unfold mbind, prog_bind, mret, prog_ret.
  destruct (subsync.arg_growth a) as [x|].
  - destruct (Qle_bool 1 x) eqn:Hx; simpl; [|discriminate].
    destruct (isfile _ w && negb _); [discriminate|].
    intros H. injection H as _ _ <- _. apply Qle_bool_iff. exact Hx.
  - destruct (isfile _ w && negb _); [discriminate|].
    intros H. injection H as _ _ <- _. apply Qle_refl.
Qed.

Lemma user_growth_at_least_one_witness : (1 <= 3 # 2)%Q.
Proof.
  apply (user_growth_at_least_one
           (subsync.mk_argv 500 (Some "a.srt"%string) (Some (3 # 2)%Q))
           (world_of [("a.srt"%string, early_document)] [] [])
           500 "a.srt"%string (3 # 2)%Q
           (world_of [("a.srt"%string, early_document)] [] [])).
  reflexivity.
Defined.

(** C9, the claim as stated, fails for the estimator: when the delay shrinks
    between the two anchors, here from 2000 ms to 1000 ms, the growth factor
    it returns is below 1. *)
Lemma estimated_growth_below_one :
  delaycalc.check_times 3000 11000 = Ok (3000, 11000) /\
  exists growth,
    delaycalc.calc_delay two_cues 3000 11000 = Ok (2000%R, growth) /\
    (growth < 1)%R.
Proof.
  split; [reflexivity|].
  exists (Rpower (2000 / 1000) (1 / IZR (3000 - 11000))). split.
  - rewrite (calc_delay_run two_cues 3000 11000 (txt "00:00:01,000")
               [txt "00:00:01,000"; txt "00:00:02,000"]
               (txt "00:00:10,000") (txt "00:00:11,000")
               (mk_datetime ORD_1900 0 0 1 0) (mk_datetime ORD_1900 0 0 10 0)
               eq_refl eq_refl eq_refl eq_refl).
    change (3000 - delaycalc.calc_ms (mk_datetime ORD_1900 0 0 1 0)) with 2000.
    change (11000 - delaycalc.calc_ms (mk_datetime ORD_1900 0 0 10 0)) with 1000.
    apply growth_model_positive; lia.
  - apply Rpower_below_one; [lra|].
    change (3000 - 11000) with (-8000). lra.
Qed.

(** * Further properties of the two modules *)

(** ** The codec, both ways *)

Lemma digit_char_value c : is_digit c = true -> digit_char (digit_value c) = c.
Proof.
  destruct c as [[] [] [] [] [] [] [] []]; intros H;
    try discriminate H; reflexivity.
Qed.

Lemma field2_split a b :
  is_digit a = true -> is_digit b = true ->
  field2 a b / 10 mod 10 = digit_value a /\ field2 a b mod 10 = digit_value b.
Proof.
  intros Ha Hb. apply digit_value_range in Ha, Hb. unfold field2.
  split; Z.div_mod_to_equations; lia.
Qed.

Lemma field3_split a b c :
  is_digit a = true -> is_digit b = true -> is_digit c = true ->
  1000 * field3 a b c / 10 / 10 / 10 / 10 / 10 mod 10 = digit_value a /\
  1000 * field3 a b c / 10 / 10 / 10 / 10 mod 10 = digit_value b /\
  1000 * field3 a b c / 10 / 10 / 10 mod 10 = digit_value c.
Proof.
  intros Ha Hb Hc. apply digit_value_range in Ha, Hb, Hc. unfold field3.
  repeat split; Z.div_mod_to_equations; lia.
Qed.

(** Formatting what was parsed gives the text back. *)
Lemma strftime_strptime s t : strptime s = Ok t -> drop_end 3 (strftime t) = s.
Proof.
  intros H. pose proof (strptime_is_timecode _ _ H) as Htc.
  destruct (is_timecode_inv s Htc)
    as (d1&d2&d3&d4&d5&d6&d7&d8&d9&->&H1&H2&H3&H4&H5&H6&H7&H8&H9).
  rewrite strptime_timecode_text in H by assumption.
  destruct ((field2 d1 d2 <? 24) && (field2 d3 d4 <? 60) && (field2 d5 d6 <? 60));
    [|discriminate].
  injection H as <-. rewrite strftime_timecode_text.
  cbn [hour minute second microsecond].
  destruct (field2_split d1 d2 H1 H2) as [-> ->].
  destruct (field2_split d3 d4 H3 H4) as [-> ->].
  destruct (field2_split d5 d6 H5 H6) as [-> ->].
  destruct (field3_split d7 d8 d9 H7 H8 H9) as (-> & -> & ->).
  rewrite !digit_char_value by assumption. reflexivity.
Qed.

Lemma clock_time_eq t t' :
  clock_time t -> clock_time t' -> subsync.calc_ms t = subsync.calc_ms t' -> t = t'.
Proof.
  intros [Ho Hh Hm Hs (k & Hk & Hus)] [Ho' Hh' Hm' Hs' (k' & Hk' & Hus')].
  unfold subsync.calc_ms. rewrite Hus, Hus'.
  replace (1000 * k / 1000) with k by (Z.div_mod_to_equations; lia).
  replace (1000 * k' / 1000) with k' by (Z.div_mod_to_equations; lia).
  intros H. destruct t, t'. simpl in *. f_equal; lia.
Qed.

(** Two timecodes with the same value are the same text. *)
Lemma parse_ms_injective s s' ms :
  parse_ms s = Ok ms -> parse_ms s' = Ok ms -> s = s'.
Proof.
  unfold parse_ms. intros H H'.
  destruct (strptime s) as [t|] eqn:Ht; [|discriminate].
  destruct (strptime s') as [t'|] eqn:Ht'; [|discriminate].
  simpl in H, H'. injection H as H. injection H' as H'.
  rewrite <- (strftime_strptime _ _ Ht), <- (strftime_strptime _ _ Ht').
  replace t' with t; [reflexivity|].
  apply clock_time_eq; [eapply strptime_clock_time; eassumption..|].
  congruence.
Qed.

Lemma get_delayed_time_constant_total s t d :
  strptime s = Ok t -> Z.abs d < MAX_DELAY ->
  exists s', subsync.get_delayed_time s d 1 = Ok s'.
Proof.
  intros Ht Hd. rewrite get_delayed_time_constant, Ht. cbn [mbind result_bind].
  destruct (clock_time_us t (strptime_clock_time _ _ Ht)) as [Hms Hr].
  unfold MAX_DELAY, MS_PER_DAY, ORD_1900, MINORD in *.
  assert ((Z.abs (1000 * d / US_PER_DAY) <=? 999999999) = true) as ->
    by (apply Z.leb_le; unfold US_PER_DAY; Z.div_mod_to_equations; lia).
  cbn [mbind result_bind]. unfold datetime_add. rewrite Hms.
  rewrite (strptime_clock_time _ _ Ht).(clock_ordinal t).
  assert (((MINORD <=? ORD_1900 + (1000 * subsync.calc_ms t + 1000 * d) / US_PER_DAY) &&
           (ORD_1900 + (1000 * subsync.calc_ms t + 1000 * d) / US_PER_DAY <=? MAXORD))
          = true) as ->.
  { apply andb_true_intro. unfold MINORD, MAXORD, ORD_1900, US_PER_DAY.
    split; [apply Z.leb_le|apply Z.leb_le]; Z.div_mod_to_equations; lia. }
  cbn [mbind result_bind]. eauto.
Qed.

(** X1. A delay of zero writes back unchanged every timecode of 8-bit
    characters that is a time of day, for every growth factor that is a
    finite number and whose power does not overflow. *)
Theorem zero_delay_keeps_timecode s t growth p :
  strptime s = Ok t ->
  float_pow growth (subsync.calc_ms t) = Ok p ->
  subsync.get_delayed_time s 0 growth = Ok s.
Proof.
  intros Ht Hp. unfold subsync.get_delayed_time.
  rewrite Ht. cbn [mbind result_bind]. rewrite Hp. cbn [mbind result_bind].
  unfold timedelta.
  rewrite (round_half_even_integer _ 0) by (simpl inject_Z; ring).
  change (Z.abs (0 / US_PER_DAY) <=? 999999999) with true.
  cbn [mbind result_bind].
  pose proof (strptime_clock_time _ _ Ht) as Hc.
  destruct (clock_time_us t Hc) as [Hms Hr].
  destruct Hc as [Ho Hh Hm Hs (k & Hk & Hus)].
  unfold datetime_add. rewrite Z.add_0_r, Hms, Ho.
  unfold MS_PER_DAY in Hr.
  replace (1000 * subsync.calc_ms t / US_PER_DAY) with 0
    by (unfold US_PER_DAY; Z.div_mod_to_equations; lia).
  change ((MINORD <=? ORD_1900 + 0) && (ORD_1900 + 0 <=? MAXORD)) with true.
  cbn [mbind result_bind]. f_equal.
  transitivity (drop_end 3 (strftime t)); [|exact (strftime_strptime _ _ Ht)].
  do 2 f_equal.
  rewrite Z.mod_small by (unfold US_PER_DAY; lia).
  rewrite <- Hms. unfold time_us. destruct t as [o h m sec us]. simpl in *.
  subst o. change 3600000000 with (1000000 * 60 * 60).
  change 60000000 with (1000000 * 60). rewrite <- !Z.div_div by lia.
  f_equal; Z.div_mod_to_equations; lia.
Qed.

Lemma zero_delay_keeps_timecode_witness :
  subsync.get_delayed_time (txt "00:00:00,004") 0 (3 # 2) = Ok (txt "00:00:00,004").
Proof.
  apply (zero_delay_keeps_timecode (txt "00:00:00,004")
           (mk_datetime ORD_1900 0 0 0 4000) (3 # 2) ((3 # 2) ^ 4)%Q);
    reflexivity.
Defined.

Lemma delayed_time_wraps_at_midnight_aux s ms delay :
  parse_ms s = Ok ms -> Z.abs delay < MAX_DELAY ->
  exists s', subsync.get_delayed_time s delay 1 = Ok s' /\
             parse_ms s' = Ok ((ms + delay) mod MS_PER_DAY).
Proof.
  unfold parse_ms at 1. intros H Hd.
  destruct (strptime s) as [t|] eqn:Ht; [|discriminate].
  simpl in H. injection H as <-.
  destruct (get_delayed_time_constant_total s t delay Ht Hd) as [s' Hs'].
  exists s'. split; [exact Hs'|].
  exact (parse_delayed_constant _ _ _ _ Ht Hs').
Qed.

(** X2. With no growth, a timecode that is a time of day and a delay below
    [MAX_DELAY] in magnitude never raise, and the timecode that is written
    is the delayed time modulo 24 hours. *)
Theorem delayed_time_wraps_at_midnight s ms delay :
  parse_ms s = Ok ms -> Z.abs delay < MAX_DELAY ->
  exists s', subsync.get_delayed_time s delay 1 = Ok s' /\
             parse_ms s' = Ok ((ms + delay) mod MS_PER_DAY).
Proof. exact (delayed_time_wraps_at_midnight_aux s ms delay). Qed.

Lemma delayed_time_wraps_at_midnight_witness :
  exists s', subsync.get_delayed_time (txt "23:59:59,000") 2500 1 = Ok s' /\
             parse_ms s' = Ok ((86399000 + 2500) mod MS_PER_DAY).
Proof.
  apply (delayed_time_wraps_at_midnight (txt "23:59:59,000") 86399000 2500).
  - reflexivity.
  - reflexivity.
Defined.

Lemma get_delayed_time_parses s delay s' :
  subsync.get_delayed_time s delay 1 = Ok s' -> exists ms, parse_ms s = Ok ms.
Proof.
  unfold subsync.get_delayed_time, parse_ms.
  destruct (strptime s) as [t|]; [|discriminate]. eauto.
Qed.

Lemma get_delayed_time_undone s delay s' :
  Z.abs delay < MAX_DELAY ->
  subsync.get_delayed_time s delay 1 = Ok s' ->
  subsync.get_delayed_time s' (- delay) 1 = Ok s.
Proof.
  intros Hd H. destruct (get_delayed_time_parses _ _ _ H) as [ms Hms].
  destruct (delayed_time_wraps_at_midnight_aux s ms delay Hms Hd)
    as (r & Hr & Hpr).
  rewrite H in Hr. injection Hr as <-.
  destruct (delayed_time_wraps_at_midnight_aux s' _ (- delay) Hpr)
    as (s'' & Hs'' & Hp''); [lia|].
  rewrite Hs''. f_equal. eapply parse_ms_injective; [exact Hp''|].
  rewrite Hms. f_equal.
  assert (0 <= ms < MS_PER_DAY) as Hrange.
  { unfold parse_ms in Hms. destruct (strptime s) as [t|] eqn:Ht; [|discriminate].
    simpl in Hms. injection Hms as <-.
    exact (proj2 (clock_time_us t (strptime_clock_time _ _ Ht))). }
  rewrite Zplus_mod_idemp_l.
  replace (ms + delay + - delay) with ms by lia.
  symmetry. apply Z.mod_small. exact Hrange.
Qed.

Lemma get_delayed_time_composed s d1 d2 s' :
  Z.abs d1 < MAX_DELAY -> Z.abs d2 < MAX_DELAY -> Z.abs (d1 + d2) < MAX_DELAY ->
  subsync.get_delayed_time s d1 1 = Ok s' ->
  subsync.get_delayed_time s' d2 1 = subsync.get_delayed_time s (d1 + d2) 1.
Proof.
  intros H1 H2 H12 H. destruct (get_delayed_time_parses _ _ _ H) as [ms Hms].
  destruct (delayed_time_wraps_at_midnight_aux s ms d1 Hms H1) as (r & Hr & Hpr).
  rewrite H in Hr. injection Hr as <-.
  destruct (delayed_time_wraps_at_midnight_aux s' _ d2 Hpr H2) as (a & Ha & Hpa).
  destruct (delayed_time_wraps_at_midnight_aux s ms (d1 + d2) Hms H12)
    as (b & Hb & Hpb).
  rewrite Ha, Hb. f_equal. eapply parse_ms_injective; [exact Hpa|].
  rewrite Hpb. f_equal. rewrite Zplus_mod_idemp_l. f_equal. lia.
Qed.

(** ** Substitutions one after the other *)

Lemma re_sub_identity data : re_sub (fun m => Ok m) data = Ok data.
Proof.
  induction data as [|c s Hc IH|m rest Hm IH] using tokens_ind.
  - reflexivity.
  - rewrite (re_sub_other _ _ _ Hc), IH. reflexivity.
  - rewrite (re_sub_timecode _ _ _ Hm). cbn [mbind result_bind].
    rewrite IH. reflexivity.
Qed.

Lemma re_sub_then f g h data out :
  (forall m r, is_timecode m -> f m = Ok r -> is_timecode r) ->
  (forall m r, f m = Ok r -> g r = h m) ->
  re_sub f data = Ok out -> re_sub g out = re_sub h data.
Proof.
  intros Hf Hgh H. pose proof (re_sub_tokens f Hf _ _ H) as Hall.
  unfold re_sub. induction Hall as [|t t' ts ts' Ht Hall IH]; [reflexivity|].
  destruct Ht as [c|m r Hr]; simpl; rewrite IH; [reflexivity|].
  rewrite (Hgh _ _ Hr). reflexivity.
Qed.

(** X3. With no growth, and on a document of 8-bit characters, where the
    digits of a timecode are ['0'] to ['9'], the substitution with the
    opposite delay undoes the substitution: the document comes back as it
    was, also where a time was carried past midnight. *)
Theorem resync_undone_by_opposite_delay data delay out :
  Z.abs delay < MAX_DELAY ->
  re_sub (fun m => subsync.get_delayed_time m delay 1) data = Ok out ->
  re_sub (fun m => subsync.get_delayed_time m (- delay) 1) out = Ok data.
Proof.
  intros Hd H. rewrite <- (re_sub_identity data).
  eapply re_sub_then; [| |exact H].
  - apply get_delayed_time_is_timecode.
  - intros m r Hr. cbv beta. apply get_delayed_time_undone; assumption.
Qed.

Lemma resync_undone_by_opposite_delay_witness :
  re_sub (fun m => subsync.get_delayed_time m (- 1500) 1) (txt "1
00:00:11,500 --> 00:05:01,500
Hello") = Ok sample_document.
Proof.
  apply (resync_undone_by_opposite_delay sample_document 1500).
  - reflexivity.
  - vm_compute. reflexivity.
Defined.

(** X4. With no growth, two substitutions one after the other are the
    substitution with the sum of the delays. *)
Theorem resync_delays_add data d1 d2 out :
  Z.abs d1 < MAX_DELAY -> Z.abs d2 < MAX_DELAY -> Z.abs (d1 + d2) < MAX_DELAY ->
  re_sub (fun m => subsync.get_delayed_time m d1 1) data = Ok out ->
  re_sub (fun m => subsync.get_delayed_time m d2 1) out =
  re_sub (fun m => subsync.get_delayed_time m (d1 + d2) 1) data.
Proof.
  intros H1 H2 H12 H.
  eapply re_sub_then; [| |exact H].
  - apply get_delayed_time_is_timecode.
  - intros m r Hr. cbv beta. apply get_delayed_time_composed; assumption.
Qed.

Lemma resync_delays_add_witness :
  re_sub (fun m => subsync.get_delayed_time m 700 1) (txt "1
00:00:11,500 --> 00:05:01,500
Hello") =
  re_sub (fun m => subsync.get_delayed_time m (1500 + 700) 1) sample_document.
Proof.
  apply (resync_delays_add sample_document 1500 700); reflexivity.
Defined.

(** ** One document *)

(** X5. A call of [sync_sub] that raises has written nothing: every file
    is as it was. *)
Theorem sync_sub_raise_keeps_files file delay growth w e :
  (subsync.sync_sub file delay growth w).1 = Raise e ->
  files (subsync.sync_sub file delay growth w).2 = files w.
Proof.
  rewrite sync_sub_run.
  destruct (files w !! realpath w file) as [data|]; [|reflexivity].
  cbv zeta.
  destruct (subsync.is_delay_valid delay _) as [[|]|e']; [|reflexivity..].
  destruct (re_sub _ _) as [new|e']; [discriminate|reflexivity].
Qed.

Lemma sync_sub_raise_keeps_files_witness :
  files (subsync.sync_sub "a.srt" 500 1 batch_world).2 = files batch_world.
Proof.
  apply (sync_sub_raise_keeps_files "a.srt" 500 1 batch_world AttributeError).
  reflexivity.
Defined.



(** On the document with the line ends [\r\n] the three characters that
    the reading took away stay at the end of the file. *)
Example sync_sub_leaves_tail :
  files (subsync.sync_sub "c.srt" 500 1
           (world_of [("c.srt"%string, crlf_document)] [] [])).2
    !! "c.srt"%string =
  Some (txt "1
00:00:01,500
Hi
" ++ [ "i"; CR; LF ]%char).
Proof. vm_compute. reflexivity. Qed.

(** X7. A document without a timecode makes [sync_sub] raise an
    [AttributeError], after the file has been read and before it is opened
    for writing. *)
Theorem sync_sub_without_timecode file delay growth w data :
  files w !! realpath w file = Some data ->
  re_findall data = [] ->
  subsync.sync_sub file delay growth w =
  (Raise AttributeError, report w [PrintSyncing file; Open file ModeR]).
Proof.
  intros Hf Hno. rewrite sync_sub_run, Hf. cbv zeta.
  rewrite is_delay_valid_newlines.
  unfold subsync.is_delay_valid, subsync.search_group, re_search.
  rewrite Hno. reflexivity.
Qed.

Lemma sync_sub_without_timecode_witness :
  subsync.sync_sub "a.srt" 500 1 batch_world =
  (Raise AttributeError,
   report batch_world [PrintSyncing "a.srt"; Open "a.srt" ModeR]).
Proof.
  apply (sync_sub_without_timecode "a.srt" 500 1 batch_world
           (txt "no timecode here")); reflexivity.
Defined.

Lemma Forall2_exists_l {A B} (P : A -> B -> Prop) l k x :
  Forall2 P l k -> x ∈ l -> exists y, P x y.
Proof.
  intros H. induction H as [|a b l k Hab H IH]; intros Hx.
  - inversion Hx.
  - apply elem_of_cons in Hx as [->|Hx]; eauto.
Qed.

(** X8. A document in which some match of the pattern is not a time of day
    (an hour of 24 or more, a minute or a second of 60 or more) is never
    rewritten, not even in part, wherever that match stands. *)
Theorem sync_sub_refuses_invalid_timecode file delay growth w data m e :
  files w !! realpath w file = Some data ->
  m ∈ re_findall data ->
  strptime m = Raise e ->
  files (subsync.sync_sub file delay growth w).2 = files w.
Proof.
  intros Hf Hm He. rewrite sync_sub_run, Hf. cbv zeta.
  destruct (subsync.is_delay_valid delay _) as [[|]|e']; [|reflexivity..].
  destruct (re_sub _ _) as [new|e'] eqn:Hnew; [|reflexivity].
  exfalso.
  pose proof (re_sub_findall _ (get_delayed_time_is_timecode delay growth)
                _ _ Hnew) as Hall.
  rewrite re_findall_newlines in Hall.
  destruct (Forall2_exists_l _ _ _ _ Hall Hm) as [r Hr].
  unfold subsync.get_delayed_time in Hr. rewrite He in Hr. discriminate Hr.
Qed.

Lemma sync_sub_refuses_invalid_timecode_witness :
  files (subsync.sync_sub "a.srt" 500 1
           (world_of [("a.srt"%string, txt "1
00:00:01,000 --> 00:00:99,000
x")] [] [])).2 =
  files (world_of [("a.srt"%string, txt "1
00:00:01,000 --> 00:00:99,000
x")] [] []).
Proof.
  apply (sync_sub_refuses_invalid_timecode "a.srt" 500 1
           (world_of [("a.srt"%string, txt "1
00:00:01,000 --> 00:00:99,000
x")] [] [])
           (txt "1
00:00:01,000 --> 00:00:99,000
x") (txt "00:00:99,000") ValueError).
  - reflexivity.
  - apply list_elem_of_In. vm_compute. right. left. reflexivity.
  - reflexivity.
Defined.

(** X9. With no growth, when the guard accepts and every timecode of the
    document is at or after the first one and still within the day once
    delayed, each timecode that is written has the value of the one it
    replaces plus the delay: no time wraps. *)
Theorem guard_suffices_without_growth data delay first ms0 out :
  re_search data = Some first ->
  parse_ms first = Ok ms0 ->
  subsync.is_delay_valid delay data = Ok true ->
  Forall (fun m => forall ms, parse_ms m = Ok ms ->
            ms0 <= ms /\ ms + delay < MS_PER_DAY)
         (re_findall data) ->
  re_sub (fun m => subsync.get_delayed_time m delay 1) data = Ok out ->
  Forall2 (fun m r => exists ms, parse_ms m = Ok ms /\ parse_ms r = Ok (ms + delay))
          (re_findall data) (re_findall out).
Proof.
  intros Hfirst Hms0 Hguard Hall H.
  assert (0 <= ms0 + delay) as Hlow.
  { unfold subsync.is_delay_valid, subsync.search_group in Hguard.
    rewrite Hfirst in Hguard. cbn [mbind result_bind] in Hguard.
    unfold parse_ms in Hms0.
    destruct (strptime first) as [t0|]; [|discriminate].
    cbn [mbind result_bind] in Hguard, Hms0.
    injection Hms0 as <-. injection Hguard as Hguard. lia. }
  pose proof (re_sub_findall _ (get_delayed_time_is_timecode delay 1) _ _ H)
    as Hsub.
  induction Hsub as [|m r ms rs Hr Hsub IH]; [constructor|].
  inversion Hall as [|? ? Hm Hrest]; subst.
  constructor; [|exact (IH Hrest)].
  destruct (get_delayed_time_parses _ _ _ Hr) as [v Hv].
  exists v. split; [exact Hv|].
  destruct (Hm v Hv) as [Hlo Hhi].
  unfold parse_ms in Hv. destruct (strptime m) as [t|] eqn:Ht; [|discriminate].
  simpl in Hv. injection Hv as <-.
  rewrite (parse_delayed_constant _ _ _ _ Ht Hr). f_equal.
  apply Z.mod_small. lia.
Qed.

Lemma guard_suffices_without_growth_witness :
  Forall2 (fun m r => exists ms, parse_ms m = Ok ms /\ parse_ms r = Ok (ms + -2000))
          (re_findall early_document)
          (re_findall (txt "1
00:00:01,000 --> 00:00:02,000
Hi")).
Proof.
  apply (guard_suffices_without_growth early_document (-2000)
           (txt "00:00:03,000") 3000).
  - reflexivity.
  - reflexivity.
  - reflexivity.
  - change (re_findall early_document)
      with [txt "00:00:03,000"; txt "00:00:04,000"].
    apply List.Forall_cons; [|apply List.Forall_cons; [|apply List.Forall_nil]];
      intros ms Hms; vm_compute in Hms; injection Hms as <-;
      unfold MS_PER_DAY; lia.
  - vm_compute. reflexivity.
Defined.

(** ** The whole run *)

Lemma sync_sub_keeps_shape file delay growth w :
  let w' := (subsync.sync_sub file delay growth w).2 in
  realpath w' = realpath w /\ dirs w' = dirs w /\
  forall q, length <$> files w' !! q = length <$> files w !! q.
Proof.
  rewrite sync_sub_run.
  destruct (files w !! realpath w file) as [data|] eqn:Hf; [|simpl; auto].
  cbv zeta.
  destruct (subsync.is_delay_valid delay _) as [[|]|e]; [|simpl; auto..].
  destruct (re_sub _ _) as [new|e] eqn:Hnew; [|simpl; auto].
  simpl. split; [reflexivity|]. split; [reflexivity|].
  intros q. rewrite lookup_alter.
  destruct (decide (realpath w file = q)) as [<-|]; [|reflexivity].
  rewrite Hf. simpl. f_equal. exact (proj2 (resync_length _ _ _ _ Hnew)).
Qed.

Lemma apply_all_keeps_shape subs delay growth w :
  let w' := (apply_all subs delay growth w).2 in
  realpath w' = realpath w /\ dirs w' = dirs w /\
  forall q, length <$> files w' !! q = length <$> files w !! q.
Proof.
  unfold apply_all. revert w. induction subs as [|f subs IH]; intros w.
  - simpl. auto.
  - rewrite for_each_cons.
    pose proof (sync_sub_keeps_shape f delay growth w) as (Hr & Hd & Hf).
    destruct (subsync.sync_sub f delay growth w) as [[[]|e] w1]; simpl in *.
    + destruct (IH w1) as (Hr' & Hd' & Hf').
      split; [congruence|]. split; [congruence|].
      intros q. rewrite Hf'. apply Hf.
    + auto.
Qed.

Lemma main_run a w : main_outcome a w (subsync.main a w).
Proof.
  unfold subsync.main. unfold mbind at 1. unfold prog_bind.
  pose proof (get_args_world a w) as Hw.
  destruct (subsync.get_args a w) as [[[[delay tgt] growth]|e] w1] eqn:Ha;
    simpl in Hw; subst w1.
  2:{ assert (e = SystemExit) as ->; [|constructor].
      revert Ha. unfold subsync.get_args, subsync.growth_type, lift, reads.
      unfold mbind, prog_bind, mret, prog_ret.
      destruct (subsync.arg_growth a) as [x|].
      - destruct (negb (Qle_bool 1 x)); [congruence|].
        destruct (isfile _ w && negb _); congruence.
      - destruct (isfile _ w && negb _); congruence. }
  unfold mbind at 1. unfold prog_bind.
  pose proof (get_sub_files_world tgt w) as Hw.
  destruct (subsync.get_sub_files tgt w) as [[subs|e] w1] eqn:Hs;
    simpl in Hw; subst w1.
  2:{ exfalso. revert Hs.
      unfold subsync.get_sub_files, listdir, reads, isdir.
      unfold mbind, prog_bind, mret, prog_ret.
      destruct (isfile tgt w); [discriminate|].
      destruct (dirs w !! realpath w tgt) as [names|] eqn:Hd.
      - rewrite bool_decide_eq_true_2 by eauto. rewrite Hd. discriminate.
      - rewrite bool_decide_eq_false_2 by (intros [? ?]; discriminate).
        discriminate. }
  destruct subs as [[|f subs]|]; [apply outcome_no_subs| |apply outcome_no_subs].
  unfold mbind at 1. unfold prog_bind.
  rewrite confirm_sync_run. cbv zeta.
  destruct (stdin w) as [|line rest] eqn:Hin.
  - apply outcome_eof. exact Hin.
  - destruct (decide (lower line = txt "y")) as [Hy|Hn].
    + rewrite bool_decide_eq_true_2 by exact Hy.
      apply (outcome_accepted a w delay growth (f :: subs) line rest);
        [exact Hin|exact Hy].
    + rewrite bool_decide_eq_false_2 by exact Hn.
      apply (outcome_declined a w delay growth (f :: subs) line rest);
        [exact Hin|exact Hn].
Qed.

(** X10. A run of [main] creates no file, removes none and changes the
    length of none, whatever its arguments and however it ends; the
    directories are as they were. *)
Theorem main_keeps_file_lengths a w q :
  length <$> files (subsync.main a w).2 !! q = length <$> files w !! q /\
  dirs (subsync.main a w).2 = dirs w.
Proof.
  destruct (main_run a w) as [| | | |delay growth subs line rest Hin Hy];
    try (simpl; auto; fail).
  destruct (apply_all_keeps_shape subs delay growth
              (mk_world (realpath w) (files w) (dirs w) rest
                 (trace w ++ PrintPreview delay growth ::
                             map PrintFile subs ++ [Prompt])))
    as (_ & Hd & Hf).
  split; [apply Hf|exact Hd].
Qed.

Lemma opened_preview delay growth subs :
  opened (PrintPreview delay growth :: map PrintFile subs ++ [Prompt]) = [].
Proof.
  unfold opened. simpl. rewrite omap_app. simpl. rewrite app_nil_r.
  induction subs as [|f subs IH]; [reflexivity|exact IH].
Qed.

(** X11. Unless the line read at the prompt is [y] or [Y], a run of [main]
    opens no file at all: no document is read before the answer. *)
Theorem nothing_opened_without_consent a w :
  (forall line rest, stdin w = line :: rest -> lower line <> txt "y") ->
  exists es, trace (subsync.main a w).2 = trace w ++ es /\ opened es = [].
Proof.
  intros Hno.
  destruct (main_run a w) as [| |delay growth subs Hin
                              |delay growth subs line rest Hin Hn
                              |delay growth subs line rest Hin Hy].
  - exists []. simpl. rewrite app_nil_r. auto.
  - exists [PrintNoSubs]. auto.
  - eexists. split; [reflexivity|]. apply opened_preview.
  - eexists. split; [reflexivity|]. apply opened_preview.
  - exfalso. exact (Hno line rest Hin Hy).
Qed.

Lemma nothing_opened_without_consent_witness :
  exists es,
    trace (subsync.main (subsync.mk_argv 500 None None)
             (world_of [("b.srt"%string, late_document)]
                       [("."%string, ["b.srt"%string])] [txt "n"])).2 =
    trace (world_of [("b.srt"%string, late_document)]
                    [("."%string, ["b.srt"%string])] [txt "n"]) ++ es /\
    opened es = [].
Proof.
  apply (nothing_opened_without_consent (subsync.mk_argv 500 None None)
           (world_of [("b.srt"%string, late_document)]
                     [("."%string, ["b.srt"%string])] [txt "n"])).
  intros line rest H. injection H as <- _. discriminate.
Defined.

(** X12. When the target is neither a file nor a directory, or a directory
    with no entry of a supported extension, a run of [main] with valid
    arguments prints that there is nothing to synchronise and returns: no
    prompt, no file opened. *)
Theorem main_without_subtitles a w :
  match subsync.arg_growth a with
  | Some x => (1 <= x)%Q
  | None => True
  end ->
  isfile (default "."%string (subsync.arg_target a)) w = false ->
  (forall names,
     dirs w !! realpath w (default "."%string (subsync.arg_target a)) = Some names ->
     filter subsync.supported names = []) ->
  subsync.main a w = (Ok tt, report w [PrintNoSubs]).
Proof.
  intros Hg Hf Hd. unfold subsync.main.
  assert (subsync.get_args a w =
          (Ok (subsync.arg_delay a, default "."%string (subsync.arg_target a),
               match subsync.arg_growth a with Some x => x | None => 1%Q end), w))
    as Ha.
  { unfold subsync.get_args, subsync.growth_type, lift, reads.
    unfold mbind, prog_bind, mret, prog_ret.
    destruct (subsync.arg_growth a) as [x|].
    - apply Qle_bool_iff in Hg. rewrite Hg. simpl. rewrite Hf. reflexivity.
    - rewrite Hf. reflexivity. }
  unfold mbind at 1. unfold prog_bind. rewrite Ha.
  unfold mbind at 1. unfold prog_bind.
  unfold subsync.get_sub_files, listdir, reads, isdir.
  unfold mbind, prog_bind, mret, prog_ret. rewrite Hf.
  destruct (dirs w !! realpath w _) as [names|] eqn:Hn.
  - rewrite bool_decide_eq_true_2 by eauto. rewrite Hn, (Hd names eq_refl).
    reflexivity.
  - rewrite bool_decide_eq_false_2 by (intros [? ?]; discriminate).
    reflexivity.
Qed.

Lemma main_without_subtitles_witness :
  subsync.main (subsync.mk_argv 500 (Some "videos"%string) None)
    (world_of [] [("videos"%string, ["a.avi"; "notes.txt"]%string)] []) =
  (Ok tt, report (world_of [] [("videos"%string, ["a.avi"; "notes.txt"]%string)] [])
            [PrintNoSubs]).
Proof.
  apply (main_without_subtitles (subsync.mk_argv 500 (Some "videos"%string) None)
           (world_of [] [("videos"%string, ["a.avi"; "notes.txt"]%string)] [])).
  - exact I.
  - reflexivity.
  - intros names H. vm_compute in H. injection H as <-. reflexivity.
Defined.

(** ** The working set *)

Lemma string_of_list_ascii_app a b :
  string_of_list_ascii (a ++ b) =
  String.append (string_of_list_ascii a) (string_of_list_ascii b).
Proof. induction a as [|c a IH]; [reflexivity|]. simpl. rewrite IH. reflexivity. Qed.

Lemma supported_suffix fn :
  subsync.supported fn = true ->
  exists root, root <> ""%string /\ fn = String.append root ".srt".
Proof.
  unfold subsync.supported, subsync.SUPP_SUB_EXTS. intros H.
  apply bool_decide_eq_true_1, list_elem_of_singleton in H.
  unfold splitext in H.
  set (cs := list_ascii_of_string fn) in *.
  destruct (rfind "/" cs <? rfind "." cs); [|discriminate H].
  destruct (forallb _ _) eqn:Hdots; [discriminate H|].
  simpl in H.
  exists (string_of_list_ascii (take (Z.to_nat (rfind "." cs)) cs)). split.
  - intros Hroot.
    destruct (take (Z.to_nat (rfind "." cs)) cs) as [|c l] eqn:Htake;
      [|discriminate Hroot].
    rewrite drop_nil in Hdots. discriminate Hdots.
  - rewrite <- H, <- string_of_list_ascii_app, take_drop.
    symmetry. apply string_of_list_ascii_of_string.
Qed.

(** X13. Every name in the working set of a directory ends with the
    extension [.srt], in lower case, after a stem that is not empty. *)
Theorem directory_working_set_extension tgt w subs w' :
  isfile tgt w = false ->
  subsync.get_sub_files tgt w = (Ok (Some subs), w') ->
  Forall (fun fn => exists root, root <> ""%string /\
                                 fn = String.append root ".srt") subs.
Proof.
  intros Hf. unfold subsync.get_sub_files, listdir, reads.
  unfold mbind, prog_bind, mret, prog_ret. rewrite Hf.
  destruct (isdir tgt w); [|discriminate].
  destruct (dirs w !! realpath w tgt) as [names|]; [|discriminate].
  intros H. injection H as <- _.
  apply Forall_forall. intros fn Hfn.
  apply list_elem_of_filter in Hfn as [Hs _].
  apply supported_suffix. destruct (subsync.supported fn); [reflexivity|].
  exfalso. exact Hs.
Qed.

Lemma directory_working_set_extension_witness :
  Forall (fun fn => exists root, root <> ""%string /\
                                 fn = String.append root ".srt")
         ["a.srt"%string].
Proof.
  apply (directory_working_set_extension "subs" directory_world
           ["a.srt"%string] directory_world); reflexivity.
Defined.

(** ** The estimator at its edges *)

Lemma strptime_raises s e : strptime s = Raise e -> e = ValueError.
Proof.
  unfold strptime.
  destruct (match_prefix TIMECODE_RE s) as [[m rest]|] eqn:Hm; [|congruence].
  destruct (match_prefix_split _ _ _ _ Hm) as (_ & _ & Htc).
  destruct (is_timecode_inv m Htc) as (d1&d2&d3&d4&d5&d6&d7&d8&d9&->&_).
  unfold timecode_text. destruct rest; [|congruence].
  destruct (_ && _); congruence.
Qed.

(** X14. On a document with fewer than two timecode occurrences the
    estimator returns no model: it raises an [IndexError], or the
    [ValueError] of an only occurrence that is not a time of day. *)
Theorem calc_delay_needs_two_timecodes data time1 time2 :
  (length (re_findall data) < 2)%nat ->
  exists e, delaycalc.calc_delay data time1 time2 = Raise e /\
            (e = IndexError \/ e = ValueError).
Proof.
  intros Hlen. unfold delaycalc.calc_delay.
  destruct (re_findall data) as [|first [|second rest]]; simpl in Hlen; [| |lia].
  - exists IndexError. split; [reflexivity|auto].
  - change (py_index [first] 0) with (Ok first). cbn [mbind result_bind].
    destruct (strptime first) as [t|e] eqn:Ht.
    + exists IndexError. split; [reflexivity|auto].
    + exists e. split; [reflexivity|]. right. exact (strptime_raises _ _ Ht).
Qed.

Lemma calc_delay_needs_two_timecodes_witness :
  exists e, delaycalc.calc_delay (txt "starts at 00:00:10,000") 11000 301000 =
            Raise e /\ (e = IndexError \/ e = ValueError).
Proof.
  apply (calc_delay_needs_two_timecodes (txt "starts at 00:00:10,000")).
  vm_compute. lia.
Defined.

(** X15. When the second anchor time is the time of the second-to-last
    occurrence, so that the second delay is zero, the estimator raises a
    [ZeroDivisionError]. *)
Theorem calc_delay_zero_second_delay data time1 time2 first pre penultimate final t1 t2 :
  head (re_findall data) = Some first ->
  re_findall data = pre ++ [penultimate; final] ->
  strptime first = Ok t1 ->
  strptime penultimate = Ok t2 ->
  time2 = delaycalc.calc_ms t2 ->
  delaycalc.calc_delay data time1 time2 = Raise ZeroDivisionError.
Proof.
  intros Hfirst Hpen Ht1 Ht2 ->.
  rewrite (calc_delay_run data time1 _ _ _ _ _ _ _ Hfirst Hpen Ht1 Ht2).
  unfold growth_model, delaycalc.truediv. rewrite Z.sub_diag. reflexivity.
Qed.

Lemma calc_delay_zero_second_delay_witness :
  delaycalc.calc_delay two_cues 3000 10000 = Raise ZeroDivisionError.
Proof.
  apply (calc_delay_zero_second_delay two_cues 3000 10000
           (txt "00:00:01,000") [txt "00:00:01,000"; txt "00:00:02,000"]
           (txt "00:00:10,000") (txt "00:00:11,000")
           (mk_datetime ORD_1900 0 0 1 0) (mk_datetime ORD_1900 0 0 10 0));
    reflexivity.
Defined.








(** ** Every document of the batch *)


